(** * Stamping a PDF: the coordinate transform, the compositor, the page
      rasterizer, the editing surface and the stamp library

    A shallow embedding of [src/utils/pdf.ts], of the [useStampAdder] hook and
    of the [StampUploader] component.

    - JavaScript numbers are IEEE 754 binary64 values: they are modelled by
      Rocq's primitive floats, so [*], [/] and [-] below round exactly as the
      program's arithmetic does.
    - Page numbers and lengths are integers ([Z]); the callers pass page
      numbers that are integers.
    - Exceptions are values of [Error]; asynchronous functions are run to
      completion in a small error monad that also records, in order, the
      calls made to the platform (pdf-lib, pdf.js, the DOM). *)

From Stdlib Require Import ZArith List String Ascii Bool Lia.
From Stdlib Require Import Floats.
From Stdlib Require Uint63.
Import ListNotations.

(* ================================================================== *)
(** ** JavaScript numbers *)

Module JS.

Open Scope float_scope.

Definition number := float.

(** [Math.max(a, b)]: NaN if either argument is NaN, and [+0] is larger
    than [-0]. *)
Definition Math_max (a b : number) : number :=
  if is_nan a || is_nan b then nan
  else if a <? b then b
  else if b <? a then a
  else if get_sign a then b else a.

(** [Math.min(a, b)]: NaN if either argument is NaN, and [-0] is smaller
    than [+0]. *)
Definition Math_min (a b : number) : number :=
  if is_nan a || is_nan b then nan
  else if a <? b then a
  else if b <? a then b
  else if get_sign a then a else b.

(** A number used as a condition: [0], [-0] and [NaN] are falsy. *)
Definition truthy (a : number) : bool :=
  negb (is_nan a || PrimFloat.is_zero a).

(** [x.toFixed(2)] for a non-negative finite [x], as the integer [n] of
    hundredths that the printed decimal denotes: the [n] with [n / 100]
    closest to the exact value of [x], the larger one on a tie. *)
Definition toFixed2_hundredths (x : number) : option Z :=
  match Prim2SF x with
  | S754_zero _ => Some 0%Z
  | S754_finite false m e =>
      Some (if (0 <=? e)%Z then (100 * Z.pos m * 2 ^ e)%Z
            else ((200 * Z.pos m + 2 ^ (- e)) / 2 ^ (1 - e))%Z)
  | _ => None
  end.

(** [parseFloat(x.toFixed(2))]: the double closest to [n / 100]; the
    division of two exactly represented integers is correctly rounded. *)
Definition parseFloat_toFixed2 (x : number) : number :=
  match toFixed2_hundredths x with
  | Some n => of_uint63 (Uint63.of_Z n) / 100
  | None => nan
  end.


(** *** Strings *)

Open Scope string_scope.

(** [s.startsWith(p)] *)
Definition startsWith (s p : string) : bool := String.prefix p s.

(** [s.includes(p)]: [p] occurs at some position of [s]. *)
Fixpoint includes (s p : string) : bool :=
  String.prefix p s ||
  match s with
  | EmptyString => false
  | String _ s' => includes s' p
  end.

(** [s.split(',')]: the maximal comma-free segments of [s], in order. *)
Fixpoint split_comma (s : string) : list string :=
  match s with
  | EmptyString => [EmptyString]
  | String c s' =>
      if Ascii.eqb c ","%char then EmptyString :: split_comma s'
      else match split_comma s' with
           | seg :: segs => String c seg :: segs
           | [] => [String c EmptyString]
           end
  end.

(** *** [window.atob]: forgiving base64 decoding *)

Definition is_ascii_whitespace (c : ascii) : bool :=
  let n := N_of_ascii c in
  N.eqb n 9 || N.eqb n 10 || N.eqb n 12 || N.eqb n 13 || N.eqb n 32.

Definition base64_value (c : ascii) : option N :=
  let n := N_of_ascii c in
  if N.leb 65 n && N.leb n 90 then Some (n - 65)%N
  else if N.leb 97 n && N.leb n 122 then Some (n - 71)%N
  else if N.leb 48 n && N.leb n 57 then Some (n + 4)%N
  else if N.eqb n 43 then Some 62%N
  else if N.eqb n 47 then Some 63%N
  else None.

Fixpoint base64_values (l : list ascii) : option (list N) :=
  match l with
  | [] => Some []
  | c :: l' =>
      match base64_value c, base64_values l' with
      | Some v, Some vs => Some (v :: vs)
      | _, _ => None
      end
  end.

(** Four 6-bit values give three bytes; a tail of three values gives two
    bytes and a tail of two values gives one, the spare bits dropped. *)
Fixpoint base64_bytes (fuel : nat) (vs : list N) : list ascii :=
  match fuel with
  | O => []
  | S fuel' =>
      match vs with
      | a :: b :: c :: d :: rest =>
          let n := (((a * 64 + b) * 64 + c) * 64 + d)%N in
          ascii_of_N (n / 65536) :: ascii_of_N ((n / 256) mod 256)
            :: ascii_of_N (n mod 256) :: base64_bytes fuel' rest
      | [a; b; c] =>
          let n := ((a * 64 + b) * 64 + c)%N in
          [ascii_of_N (n / 1024); ascii_of_N ((n / 4) mod 256)]
      | [a; b] => [ascii_of_N ((a * 64 + b) / 16)]
      | _ => []
      end
  end.

Definition strip_padding (l : list ascii) : list ascii :=
  if Nat.eqb (List.length l mod 4) 0 then
    match rev l with
    | "="%char :: "="%char :: r => rev r
    | "="%char :: r => rev r
    | _ => l
    end
  else l.

(** [None] stands for the [InvalidCharacterError] the browser throws. *)
Definition atob (s : string) : option string :=
  let data := strip_padding
                (filter (fun c => negb (is_ascii_whitespace c))
                        (list_ascii_of_string s)) in
  if Nat.eqb (List.length data mod 4) 1 then None
  else match base64_values data with
       | Some vs => Some (string_of_list_ascii
                            (base64_bytes (S (List.length vs)) vs))
       | None => None
       end.

End JS.

(* ================================================================== *)
(** ** Documents, the platform and the store *)

Module Pdf.

Import JS.
Open Scope string_scope.
Open Scope list_scope.

(** A rectangle [{ x, y, width, height }]. *)
Record Rect : Type := mkRect
  { x : number; y : number; width : number; height : number }.

Definition Uint8Array := list Byte.byte.

(** An image drawn on a page by [page.drawImage(image, { x, y, width, height })]. *)
Record DrawnImage : Type := mkDrawn
  { drawn_image : Uint8Array; drawn_at : Rect }.

(** A page as pdf-lib and pdf.js see it: its intrinsic size ([getSize()])
    and the images added to its content, oldest first. *)
Record PDFPage : Type := mkPage
  { page_width : number; page_height : number; page_images : list DrawnImage }.

(** The bytes of a file, by what the PDF libraries make of them: pdf-lib
    and pdf.js either both read them as a document with these pages, or
    both reject them; what [pdfDoc.save()] writes, both read back. *)
Inductive Bytes : Type :=
| NotAPdf
| PdfBytes (pages : list PDFPage).

Record File : Type := mkFile { name : string; bytes : Bytes }.

(** What the program does not decide itself. *)
Record Platform : Type := mkPlatform
  { (** [pdfDoc.embedPng(data)] accepts [data] *)
    png_decodes : Uint8Array -> bool;
    (** [page.render(...)] at scale 5 followed by
        [canvas.toDataURL('image/png')]; [None] when rendering throws *)
    rasterize : PDFPage -> option string }.

(** Exceptions, by the message of the [Error] thrown. *)
Inductive Error : Type :=
| InvalidPageNumber (numPages : Z)
    (* `유효하지 않은 페이지 번호입니다. 1부터 ${numPages}까지의 값을 사용하세요.` *)
| NotDataURL        (* '도장 이미지는 유효한 데이터 URL 형식이어야 합니다.' *)
| NotPng            (* '도장 이미지는 PNG 형식이어야 합니다.' *)
| StampNotFound     (* '도장 정보를 찾을 수 없습니다.' *)
| StampApplyFailed  (* 'PDF에 도장을 추가하는 중 오류가 발생했습니다.' *)
| PageCountFailed   (* 'PDF 파일의 페이지 수를 확인하는 중 오류가 발생했습니다.' *)
| PdfParseError     (* thrown by pdf-lib or pdf.js on bytes that are no PDF *)
| InvalidCharacterError (* thrown by window.atob *)
| PngDecodeError    (* thrown by embedPng *)
| RenderError       (* thrown by pdf.js while rendering a page *)
| TypeError.        (* a property read on undefined *)

(** The calls made to the platform, in the order the program makes them. *)
Inductive Event : Type :=
| CreateObjectURL (fileName : string)
| RevokeObjectURL
| GetDocument
| RenderPage (pageNum : Z)
| ArrayBuffer
| PDFDocumentLoad
| Atob (base64 : string)
| EmbedPng (imageData : Uint8Array)
| GetPages
| DrawImage (pageIndex : nat) (at_ : Rect)
| Save
| ConsoleError (error : Error)
| Enter_addStampToPDF (stampImage : string) (position : option Rect)
                      (pageNumber : Z).

(** *** The monad: a trace of events and a result or an exception *)

Definition M (A : Type) : Type := (list Event * (Error + A))%type.

Definition ret {A} (a : A) : M A := ([], inr a).
Definition throw {A} (e : Error) : M A := ([], inl e).
Definition emit (ev : Event) : M unit := ([ev], inr tt).

Definition bind {A B} (m : M A) (f : A -> M B) : M B :=
  match m with
  | (t, inl e) => (t, inl e)
  | (t, inr a) => let (t', r) := f a in (t ++ t', r)
  end.

(** [try { m } catch (error) { h error }] *)
Definition try_catch {A} (m : M A) (h : Error -> M A) : M A :=
  match m with
  | (t, inl e) => let (t', r) := h e in (t ++ t', r)
  | (t, inr a) => (t, inr a)
  end.

(** [try { m } finally { fin }] *)
Definition try_finally {A} (m : M A) (fin : M unit) : M A :=
  let (t, r) := m in
  match fin with
  | (t', inl e) => (t ++ t', inl e)
  | (t', inr _) => (t ++ t', r)
  end.

Definition trace {A} (m : M A) : list Event := fst m.
Definition result {A} (m : M A) : Error + A := snd m.

Declare Scope js_scope.
Delimit Scope js_scope with js.
Notation "x <- m ;; k" := (bind m (fun x => k))
  (at level 61, m at next level, right associativity) : js_scope.
Notation "m ;; k" := (bind m (fun _ => k))
  (at level 61, right associativity) : js_scope.

(** *** The store ([useStore]) *)

(** Modelled from the spec: the type [Stamp] of [@/store], which is not
    among the sources: a stamp asset with its identifier, its image as a
    data URL and its display name, the fields the sources read. *)
Record Stamp : Type := mkStamp { id : string; src : string; stamp_name : string }.

(** Modelled from the spec: the type [PageStamp] of [@/store], which is not
    among the sources: the placement recorded for a page, with the stamp it
    refers to, the 1-based page number, and the position and size on the
    editing surface. *)
Record PageStamp : Type := mkPageStamp
  { pageNumber : Z; stampId : string; position : Rect }.

End Pdf.

(* ================================================================== *)
(** ** [src/utils/pdf.ts] *)

Module PdfUtils.

Import JS Pdf.
Open Scope string_scope.
Open Scope list_scope.
Open Scope float_scope.
Open Scope js_scope.

(** [export const FABRIC_CANVAS_WIDTH = 500] *)
Definition FABRIC_CANVAS_WIDTH : number := 500.

(** [parseFloat((FABRIC_CANVAS_WIDTH * Math.sqrt(2)).toFixed(2))] *)
Definition FABRIC_CANVAS_HEIGHT : number :=
  Eval vm_compute in parseFloat_toFixed2 (FABRIC_CANVAS_WIDTH * PrimFloat.sqrt 2).

(** *** Platform calls *)

Definition numPages (pages : list PDFPage) : Z := Z.of_nat (List.length pages).

(** [pdfjsLib.getDocument(pdfUrl).promise] *)
Definition getDocument (file : File) : M (list PDFPage) :=
  emit GetDocument ;;
  match bytes file with
  | NotAPdf => throw PdfParseError
  | PdfBytes pages => ret pages
  end.

(** [pdfFile.arrayBuffer()] *)
Definition arrayBuffer (file : File) : M Bytes :=
  emit ArrayBuffer ;; ret (bytes file).

(** [PDFDocument.load(pdfBytes)] *)
Definition PDFDocument_load (pdfBytes : Bytes) : M (list PDFPage) :=
  emit PDFDocumentLoad ;;
  match pdfBytes with
  | NotAPdf => throw PdfParseError
  | PdfBytes pages => ret pages
  end.

(** [pdfDoc.embedPng(imageData)] *)
Definition embedPng (pf : Platform) (imageData : Uint8Array) : M Uint8Array :=
  emit (EmbedPng imageData) ;;
  if png_decodes pf imageData then ret imageData else throw PngDecodeError.

(** [page.drawImage(image, { x, y, width, height })]: the image is added
    to the page, whose earlier content stays. *)
Definition drawImage (page : PDFPage) (image : Uint8Array) (at_ : Rect) : PDFPage :=
  mkPage (page_width page) (page_height page)
         (page_images page ++ [mkDrawn image at_]).

Fixpoint replace_nth {A} (n : nat) (a : A) (l : list A) : list A :=
  match l, n with
  | [], _ => []
  | _ :: l', O => a :: l'
  | b :: l', S n' => b :: replace_nth n' a l'
  end.

(** [pdfDoc.save()] *)
Definition save (pages : list PDFPage) : M Bytes :=
  emit Save ;; ret (PdfBytes pages).

(** *** [pdfPageToImage] *)

(** The [error] field of the result:
    `PDF 파일의 페이지 ${pageNumber}를 처리하는 중 오류가 발생했습니다.` *)
Inductive PageImageError : Type :=
| PageProcessingFailed (pageNumber : Z).

Record PageImage : Type := mkPageImage
  { image : string;
    error : option PageImageError;
    fileName : string;
    image_pageNumber : Z }.

(** The inner [renderPageToImage]: [pdf.getPage], [page.render] and
    [canvas.toDataURL]. *)
Definition renderPageToImage (pf : Platform) (pdf : list PDFPage) (pageNum : Z)
  : M string :=
  emit (RenderPage pageNum) ;;
  match nth_error pdf (Z.to_nat (pageNum - 1)) with
  | None => throw RenderError
  | Some page =>
      match rasterize pf page with
      | Some dataUrl => ret dataUrl
      | None => throw RenderError
      end
  end.

Definition pdfPageToImage (pf : Platform) (file : File) (pageNumber : Z)
  : M PageImage :=
  emit (CreateObjectURL (name file)) ;;
  try_finally
    (try_catch
       (pdf <- getDocument file ;;
        (if (pageNumber <? 1)%Z || (pageNumber >? numPages pdf)%Z
         then throw (InvalidPageNumber (numPages pdf))
         else ret tt) ;;
        image <- renderPageToImage pf pdf pageNumber ;;
        ret (mkPageImage image None (name file) pageNumber))
       (fun error =>
          emit (ConsoleError error) ;;
          ret (mkPageImage "" (Some (PageProcessingFailed pageNumber))
                           (name file) pageNumber)))
    (emit RevokeObjectURL).

(** [pdfFileToImage]: the first page, without the page number. *)
Definition pdfFileToImage (pf : Platform) (file : File)
  : M (string * option PageImageError * string) :=
  result <- pdfPageToImage pf file 1 ;;
  ret (image result, error result, fileName result).

Definition getImageByFile (pf : Platform) (file : File) : M string :=
  result <- pdfFileToImage pf file ;;
  ret (fst (fst result)).

(** *** [dataURLToBytes] *)

(** [dataUrl.split(',')[1]]; it is [undefined] when there is no comma, and
    [window.atob] then decodes the string ["undefined"]. *)
Definition base64Of (dataUrl : string) : string :=
  match nth_error (split_comma dataUrl) 1 with
  | Some segment => segment
  | None => "undefined"
  end.

Definition dataURLToBytes (dataUrl : string) : M Uint8Array :=
  let base64 := base64Of dataUrl in
  emit (Atob base64) ;;
  match atob base64 with
  | Some binaryString =>
      ret (List.map byte_of_ascii (list_ascii_of_string binaryString))
  | None => throw InvalidCharacterError
  end.

(** *** The stamp rectangle

    The block [if (position) { ... } else { ... }], which the two
    compositors share word for word. *)
Definition stampRect (position : option Rect) (width height : number) : Rect :=
  match position with
  | Some position =>
      let scaleX := width / FABRIC_CANVAS_WIDTH in
      let scaleY := height / FABRIC_CANVAS_HEIGHT in
      let stampWidth := Pdf.width position * scaleX in
      let stampHeight := Pdf.height position * scaleY in
      let stampX := Pdf.x position * scaleX in
      let stampY := height - Pdf.y position * scaleY - stampHeight in
      mkRect stampX stampY stampWidth stampHeight
  | None =>
      let stampWidth := 100 in
      let stampHeight := 100 in
      let stampX := width / 2 - stampWidth / 2 in
      let stampY := height / 2 - stampHeight / 2 in
      mkRect stampX stampY stampWidth stampHeight
  end.

(** The two checks on [stampImage], with the decoding between them. *)
Definition embedStamp (pf : Platform) (stampImage : string) : M Uint8Array :=
  imageData <- (if startsWith stampImage "data:"
                then dataURLToBytes stampImage
                else throw NotDataURL) ;;
  if includes stampImage "image/png"
  then embedPng pf imageData
  else throw NotPng.

(** *** [addStampToPDF] *)

Definition addStampToPDF (pf : Platform) (pdfFile : File) (stampImage : string)
    (position : option Rect) (pageNumber : Z) : M Bytes :=
  emit (Enter_addStampToPDF stampImage position pageNumber) ;;
  try_catch
    (pdfBytes <- arrayBuffer pdfFile ;;
     pdfDoc <- PDFDocument_load pdfBytes ;;
     stampPng <- embedStamp pf stampImage ;;
     emit GetPages ;;
     let pages := pdfDoc in
     (if (pageNumber <? 1)%Z || (pageNumber >? numPages pages)%Z
      then throw (InvalidPageNumber (numPages pages))
      else ret tt) ;;
     let pageIndex := Z.to_nat (pageNumber - 1) in
     match nth_error pages pageIndex with
     | None => throw TypeError
     | Some page =>
         let at_ := stampRect position (page_width page) (page_height page) in
         emit (DrawImage pageIndex at_) ;;
         save (replace_nth pageIndex (drawImage page stampPng at_) pages)
     end)
    (fun error => emit (ConsoleError error) ;; throw StampApplyFailed).

(** *** [getPdfPageCount] *)

Definition getPdfPageCount (file : File) : M Z :=
  emit (CreateObjectURL (name file)) ;;
  try_finally
    (try_catch
       (pdf <- getDocument file ;; ret (numPages pdf))
       (fun error => emit (ConsoleError error) ;; throw PageCountFailed))
    (emit RevokeObjectURL).

(** *** [addStampToAllPDFPages] *)

(** The loop [for (let i = 0; i < pages.length; i++)], from index [i]
    over the pages that remain. *)
Fixpoint stampPagesFrom (stampPng : Uint8Array) (position : option Rect)
    (i : nat) (pages : list PDFPage) : M (list PDFPage) :=
  match pages with
  | [] => ret []
  | page :: rest =>
      let at_ := stampRect position (page_width page) (page_height page) in
      emit (DrawImage i at_) ;;
      rest' <- stampPagesFrom stampPng position (S i) rest ;;
      ret (drawImage page stampPng at_ :: rest')
  end.

Definition addStampToAllPDFPages (pf : Platform) (pdfFile : File)
    (stampImage : string) (position : option Rect) : M Bytes :=
  try_catch
    (pdfBytes <- arrayBuffer pdfFile ;;
     pdfDoc <- PDFDocument_load pdfBytes ;;
     emit GetPages ;;
     let pages := pdfDoc in
     stampPng <- embedStamp pf stampImage ;;
     pages' <- stampPagesFrom stampPng position 0 pages ;;
     save pages')
    (fun error => emit (ConsoleError error) ;; throw StampApplyFailed).

(** *** [getPageImageByFile] *)

(** The part of [useStore.getState()] that [getPageImageByFile] reads. *)
Record StoreState : Type := mkStoreState
  { pageStamps : list PageStamp; stamps : list Stamp }.

Definition getPageImageByFile (pf : Platform) (store : StoreState)
    (file : File) (pageNumber : Z) : M string :=
  match find (fun stamp => (Pdf.pageNumber stamp =? pageNumber)%Z)
             (pageStamps store) with
  | None =>
      result <- pdfPageToImage pf file pageNumber ;;
      ret (image result)
  | Some pageStamp =>
      try_catch
        (stamp <- match find (fun s => String.eqb (id s) (stampId pageStamp))
                             (stamps store) with
                  | Some stamp => ret stamp
                  | None => throw StampNotFound
                  end ;;
         let position :=
           mkRect (Math_max 0 (x (Pdf.position pageStamp)))
                  (Math_max 0 (y (Pdf.position pageStamp)))
                  (width (Pdf.position pageStamp))
                  (height (Pdf.position pageStamp)) in
         modifiedPdfBytes <- addStampToPDF pf file (src stamp) (Some position)
                                           pageNumber ;;
         let modifiedPdfFile := mkFile (name file) modifiedPdfBytes in
         result <- pdfPageToImage pf modifiedPdfFile pageNumber ;;
         ret (image result))
        (fun error =>
           emit (ConsoleError error) ;;
           result <- pdfPageToImage pf file pageNumber ;;
           ret (image result))
  end.

(** *** Notions used to state the properties *)

(** The bytes [dataURLToBytes] yields, when [window.atob] does not throw. *)
Definition stampBytes (stampImage : string) : option Uint8Array :=
  match atob (base64Of stampImage) with
  | Some binaryString =>
      Some (List.map byte_of_ascii (list_ascii_of_string binaryString))
  | None => None
  end.

(** The image [embedStamp] returns, when it returns one. *)
Definition embeddable (pf : Platform) (stampImage : string) : option Uint8Array :=
  if startsWith stampImage "data:" then
    match stampBytes stampImage with
    | Some imageData =>
        if includes stampImage "image/png" then
          if png_decodes pf imageData then Some imageData else None
        else None
    | None => None
    end
  else None.

(** [1 <= pageNumber <= pages.length] *)
Definition in_range (pageNumber : Z) (pages : list PDFPage) : Prop :=
  (1 <= pageNumber <= numPages pages)%Z.

(** A page after the stamp has been drawn on it at its own [stampRect]. *)
Definition stampedPage (imageData : Uint8Array) (position : option Rect)
    (page : PDFPage) : PDFPage :=
  drawImage page imageData
            (stampRect position (page_width page) (page_height page)).

(** The [drawImage] calls of the loop over [pages], from index [i]. *)
Fixpoint drawEventsFrom (position : option Rect) (i : nat)
    (pages : list PDFPage) : list Event :=
  match pages with
  | [] => []
  | page :: rest =>
      DrawImage i (stampRect position (page_width page) (page_height page))
        :: drawEventsFrom position (S i) rest
  end.

(** A run reaches [pdfDoc.embedPng]. *)
Definition reaches_embedding (t : list Event) : Prop :=
  exists imageData, In (EmbedPng imageData) t.

(** The events of a run before its first [console.error] of an invalid
    page number (all of them when there is none). *)
Fixpoint before_page_rejection (t : list Event) : list Event :=
  match t with
  | [] => []
  | ConsoleError (InvalidPageNumber _) :: _ => []
  | ev :: t' => ev :: before_page_rejection t'
  end.

(** An event that marks a call of [page.drawImage]. *)
Definition is_draw (ev : Event) : bool :=
  match ev with
  | DrawImage _ _ => true
  | _ => false
  end.

(** An event that marks a call of the compositor. *)
Definition is_enter (ev : Event) : bool :=
  match ev with
  | Enter_addStampToPDF _ _ _ => true
  | _ => false
  end.

(** The image [pdfPageToImage] yields for a page of a file, which
    [getPageImageByFile] returns for a page without a placement. *)
Definition rasterization (pf : Platform) (file : File) (pageNumber : Z) : string :=
  match result (pdfPageToImage pf file pageNumber) with
  | inr r => image r
  | inl _ => ""
  end.

(** The transform as section 4.1 of the specification words it, with its
    clamp on [x]; to be compared with [stampRect]. *)
Definition toPageSpace_spec (editingRect : Rect) (pageWidth pageHeight : number)
  : Rect :=
  let scaleX := pageWidth / 500 in
  let scaleY := pageHeight / FABRIC_CANVAS_HEIGHT in
  let w := Pdf.width editingRect * scaleX in
  let h := Pdf.height editingRect * scaleY in
  mkRect (Math_max 0 (Pdf.x editingRect * scaleX))
         (pageHeight - Pdf.y editingRect * scaleY - h)
         w h.

(** The position [getPageImageByFile] hands to the compositor. *)
Definition clamped (position : Rect) : Rect :=
  mkRect (Math_max 0 (Pdf.x position)) (Math_max 0 (Pdf.y position))
         (Pdf.width position) (Pdf.height position).

End PdfUtils.

(* ================================================================== *)
(** ** The [useStampAdder] hook *)

Module StampAdder.

Import JS Pdf.
Open Scope list_scope.
Open Scope float_scope.

(** A [fabric.FabricImage]; [obj_id] stands for the identity of the object.
    The corner and border styling set with the position is left out. *)
Record FabricImage : Type := mkFabricImage
  { obj_id : nat;
    img_width : number; img_height : number;
    scaleX : number; scaleY : number;
    left : number; top : number }.

Record Canvas : Type := mkCanvas
  { canvas_width : number; canvas_height : number;
    objects : list FabricImage;
    activeObject : option FabricImage }.

(** The part of the store the hook uses. *)
Record Store : Type := mkStore
  { selectedStamp : option Stamp; stampObject : option FabricImage }.

(** Modelled from the spec: the store's [setStampObject] action ([@/store]
    is not among the sources), which replaces the reference to the placed
    object and nothing else. *)
Definition setStampObject (o : option FabricImage) (s : Store) : Store :=
  mkStore (selectedStamp s) o.

(** The store, the target canvas, and the identity the next object gets. *)
Record World : Type := mkWorld
  { store : Store; canvas : Canvas; next_id : nat }.

Inductive ToastMessage : Type :=
| StampAdded          (* '도장이 추가되었습니다.' *)
| ImageLoadFailed     (* '도장 이미지 로드 중 오류가 발생했습니다.' *)
| ProcessingFailed    (* '도장 이미지 처리 중 오류가 발생했습니다.' *)
| AddFailed.          (* '도장 이미지를 추가하는 중 오류가 발생했습니다.' *)

(** The effects of [addStampToCanvas], one per statement. *)
Inductive Action : Type :=
| Remove (o : FabricImage)                  (* targetCanvas.remove(o) *)
| SetStampObject (o : option FabricImage)   (* setStampObject(o) *)
| NewFabricImage (o : FabricImage)          (* new fabric.FabricImage(img) *)
| Add (o : FabricImage)                     (* targetCanvas.add(o) *)
| SetActiveObject (o : FabricImage)         (* targetCanvas.setActiveObject(o) *)
| RequestRenderAll
| ToastSuccess (m : ToastMessage)
| ToastError (m : ToastMessage).

Definition same_object (a b : FabricImage) : bool := Nat.eqb (obj_id a) (obj_id b).

Definition step (w : World) (a : Action) : World :=
  let c := canvas w in
  match a with
  | Remove o =>
      mkWorld (store w)
        (mkCanvas (canvas_width c) (canvas_height c)
           (filter (fun o' => negb (same_object o' o)) (objects c))
           (match activeObject c with
            | Some act => if same_object act o then None else Some act
            | None => None
            end))
        (next_id w)
  | SetStampObject o => mkWorld (setStampObject o (store w)) c (next_id w)
  | NewFabricImage o => mkWorld (store w) c (S (obj_id o))
  | Add o =>
      mkWorld (store w)
        (mkCanvas (canvas_width c) (canvas_height c) (objects c ++ [o])
                  (activeObject c))
        (next_id w)
  | SetActiveObject o =>
      mkWorld (store w)
        (mkCanvas (canvas_width c) (canvas_height c) (objects c) (Some o))
        (next_id w)
  | RequestRenderAll | ToastSuccess _ | ToastError _ => w
  end.

Definition run (w : World) (actions : list Action) : World :=
  fold_left step actions w.

(** What the hook read from [useStore()] in the render that built
    [addStampToCanvas]; the callback keeps these values until a render in
    which one of them has changed builds the next one. *)
Record Hook : Type := mkHook
  { hook_selectedStamp : option Stamp; hook_stampObject : option FabricImage }.

Definition useStampAdder (s : Store) : Hook :=
  mkHook (selectedStamp s) (stampObject s).

(** The statement of the [onload] body that throws, when one does; what
    the statements before it did stays done. *)
Inductive Throwing : Type :=
| InFabricImage        (* new fabric.FabricImage(img), fabricImg.scale, fabricImg.set *)
| InAdd                (* targetCanvas.add(fabricImg) *)
| InSetActiveObject    (* targetCanvas.setActiveObject(fabricImg) *)
| InSetStampObject     (* setStampObject(fabricImg) *)
| InRequestRenderAll   (* targetCanvas.requestRenderAll() *)
| InToast.             (* toast.success(...) *)

(** What becomes of the [Image] a call creates for [selectedStamp.src]:
    [onload] with the intrinsic size, whose body runs to its end or until
    a statement throws; [onerror]; or the creation itself throws, which the
    outer [catch] handles. *)
Inductive ImageLoad : Type :=
| Loaded (width height : number)
| LoadError
| LoadedThrows (width height : number) (at_ : Throwing)
| ImageThrows.

(** [new fabric.FabricImage(img)], scaled down to at most [maxSize] and
    centred on the canvas. *)
Definition newStampImage (targetCanvas : Canvas) (fresh : nat)
    (width height : number) : FabricImage :=
  let maxSize := 100 in
  let scale :=
    if truthy width && truthy height then
      if (maxSize <? width) || (maxSize <? height)
      then Math_min (maxSize / width) (maxSize / height)
      else 1
    else 1 in
  mkFabricImage fresh width height scale scale
    (canvas_width targetCanvas / 2 - (width * scale) / 2)
    (canvas_height targetCanvas / 2 - (height * scale) / 2).

(** The part of [addStampToCanvas(targetCanvas)] that runs when it is
    called: its effects, and the value the promise resolves to if it
    resolves at once ([None] while the image is loading). It reads the
    selected stamp and the placed object from the hook, not from the
    store. The removal stands before the [try]; it and the handlers'
    [toast.error] are taken to return. *)
Definition begin (hook : Hook) (load : ImageLoad)
  : list Action * option bool :=
  match hook_selectedStamp hook with
  | None => ([], Some false)
  | Some _ =>
      let removal :=
        match hook_stampObject hook with
        | Some stampObject => [Remove stampObject; SetStampObject None]
        | None => []
        end in
      match load with
      | ImageThrows => (removal ++ [ToastError AddFailed], Some false)
      | _ => (removal, None)
      end
  end.

(** The statements of the [onload] body that have run when [at_] throws. *)
Definition done_before (at_ : Throwing) : nat :=
  match at_ with
  | InFabricImage => 0
  | InAdd => 1
  | InSetActiveObject => 2
  | InSetStampObject => 3
  | InRequestRenderAll => 4
  | InToast => 5
  end.

(** The part that runs when the image settles, on the world as it is
    then: the [onload] body with its [catch], or [onerror]. An image whose
    creation threw never settles. *)
Definition settle (w : World) (load : ImageLoad) : list Action * bool :=
  let body width height :=
    let fabricImg := newStampImage (canvas w) (next_id w) width height in
    [NewFabricImage fabricImg; Add fabricImg; SetActiveObject fabricImg;
     SetStampObject (Some fabricImg); RequestRenderAll;
     ToastSuccess StampAdded] in
  match load with
  | Loaded width height => (body width height, true)
  | LoadedThrows width height at_ =>
      (firstn (done_before at_) (body width height)
         ++ [ToastError ProcessingFailed],
       false)
  | LoadError => ([ToastError ImageLoadFailed], false)
  | ImageThrows => ([], false)
  end.

(** [addStampToCanvas(targetCanvas)] when nothing else happens between the
    call and the moment the image settles: its effects in order, and the
    value the promise resolves to. *)
Definition addStampToCanvas (hook : Hook) (w : World) (load : ImageLoad)
  : list Action * bool :=
  match begin hook load with
  | (called, Some resolved) => (called, resolved)
  | (called, None) =>
      let (settled, resolved) := settle (run w called) load in
      (called ++ settled, resolved)
  end.

(** The world with the images that are still loading, oldest first. *)
Record Surface : Type := mkSurface
  { world : World; loading : list ImageLoad }.

(** What can happen on the surface: [addStampToCanvas] is called through
    some hook, or the image at position [k] of those loading settles. *)
Inductive Happening : Type :=
| Call (hook : Hook) (load : ImageLoad)
| Settle (k : nat).

Fixpoint remove_nth {A} (k : nat) (l : list A) : list A :=
  match l, k with
  | [], _ => []
  | _ :: l', O => l'
  | a :: l', S k' => a :: remove_nth k' l'
  end.

Definition happen (s : Surface) (h : Happening) : Surface :=
  match h with
  | Call hook load =>
      match begin hook load with
      | (called, Some _) => mkSurface (run (world s) called) (loading s)
      | (called, None) =>
          mkSurface (run (world s) called) (loading s ++ [load])
      end
  | Settle k =>
      match nth_error (loading s) k with
      | Some load =>
          mkSurface (run (world s) (fst (settle (world s) load)))
                    (remove_nth k (loading s))
      | None => s
      end
  end.

Definition happen_all (s : Surface) (hs : list Happening) : Surface :=
  fold_left happen hs s.

(** One call of [place] by the hook of the current render, that is with
    the selected stamp and the placed object the store holds now, whose
    image settles before anything else happens. *)
Definition place (w : World) (load : ImageLoad) : World :=
  run w (fst (addStampToCanvas (useStampAdder (store w)) w load)).

Definition place_succeeds (w : World) (load : ImageLoad) : bool :=
  snd (addStampToCanvas (useStampAdder (store w)) w load).

Definition place_all (w : World) (loads : list ImageLoad) : World :=
  fold_left place loads w.

(** The worlds the canvas goes through while [actions] run, the first and
    the last included. *)
Fixpoint states (w : World) (actions : list Action) : list World :=
  w :: match actions with
       | [] => []
       | a :: rest => states (step w a) rest
       end.

(** The objects on the canvas beyond those in [base]. *)
Definition placed_beyond (base : list FabricImage) (w : World)
  : list FabricImage :=
  skipn (List.length base) (objects (canvas w)).

(** The canvas holds the objects of [base] and, after them, exactly the
    object the store refers to as placed, if any; identities are distinct
    and older than [next_id]. *)
Definition Consistent (base : list FabricImage) (w : World) : Prop :=
  objects (canvas w)
  = base ++ match stampObject (store w) with
            | Some o => [o]
            | None => []
            end /\
  Forall (fun o => (obj_id o < next_id w)%nat) (objects (canvas w)) /\
  NoDup (List.map obj_id (objects (canvas w))).

(** The object the store refers to as placed, if any, is on the canvas. *)
Definition referenced_on_canvas (w : World) : Prop :=
  forall o, stampObject (store w) = Some o -> In o (objects (canvas w)).

(** Every call of the series resolves to [true]. *)
Fixpoint all_succeed (w : World) (loads : list ImageLoad) : Prop :=
  match loads with
  | [] => True
  | load :: rest =>
      place_succeeds w load = true /\ all_succeed (place w load) rest
  end.

End StampAdder.

(* ================================================================== *)
(** ** The [StampUploader] component *)

Module StampUploader.

Import Pdf.
Open Scope string_scope.
Open Scope list_scope.

Inductive Toast : Type :=
| ErrorLimit      (* '도장은 최대 5개까지만 업로드할 수 있습니다.' *)
| SuccessAdded.   (* '도장 이미지가 추가되었습니다.' *)

(** A change event of the file input, with what the environment answers
    while it is handled: the verdict of [validateStampFile], the data URL
    the [FileReader] delivers, and the identifier [uuidv4()] draws. *)
Record ChangeEvent : Type := mkChange
  { selectedFile : option string;     (* e.target.files?.[0], by its name *)
    isValid : bool;
    readerResult : option string;     (* event.target?.result *)
    uuid : string }.

Section Store.

(** The store's [addStamp] action on the list of stamps; [@/store] is
    not among the sources, so the action is a parameter. *)
Variable addStamp : Stamp -> list Stamp -> list Stamp.

Definition handleStampChange (stamps : list Stamp) (e : ChangeEvent)
  : list Stamp * list Toast :=
  match selectedFile e with
  | Some fileName =>
      if (5 <=? List.length stamps)%nat then (stamps, [ErrorLimit])
      else if isValid e then
        match readerResult e with
        | Some result =>
            if String.eqb result "" then (stamps, [])
            else (addStamp (mkStamp (uuid e) result fileName) stamps,
                  [SuccessAdded])
        | None => (stamps, [])
        end
      else (stamps, [])
  | None => (stamps, [])
  end.

(** The library after a series of change events, each handled to the
    end (its file read and its stamp added) before the next arrives. *)
Definition uploads (stamps : list Stamp) (es : list ChangeEvent) : list Stamp :=
  fold_left (fun l e => fst (handleStampChange l e)) es stamps.

End Store.

End StampUploader.

(* ================================================================== *)
(** ** Concrete documents, stamps and platforms *)

Module Examples.

Import JS Pdf PdfUtils.
Open Scope string_scope.
Open Scope list_scope.
Open Scope float_scope.

(** A data URL whose payload is the eight bytes of the PNG signature. *)
Definition pngStamp : string := "data:image/png;base64,iVBORw0KGgo=".

(** A platform that embeds every image and renders every page. *)
Definition sturdy : Platform :=
  mkPlatform (fun _ => true)
             (fun page => match page_images page with
                          | [] => Some "data:image/png;base64,cGxhaW4="
                          | _ => Some "data:image/png;base64,c3RhbXBlZA=="
                          end).

(** A platform whose renderer throws on a page that carries an image. *)
Definition fragile : Platform :=
  mkPlatform (fun _ => true)
             (fun page => match page_images page with
                          | [] => Some "data:image/png;base64,cGxhaW4="
                          | _ => None
                          end).

(** A page of the size of the editing surface, a US Letter page and an
    A3 page. *)
Definition surfacePage : PDFPage := mkPage 500 FABRIC_CANVAS_HEIGHT [].
Definition letterPage : PDFPage := mkPage 612 792 [].
Definition a3Page : PDFPage := mkPage 842 1191 [].

Definition onePage : File := mkFile "one.pdf" (PdfBytes [surfacePage]).
Definition threePages : File :=
  mkFile "three.pdf" (PdfBytes [surfacePage; letterPage; a3Page]).

(** A placement whose left edge lies 10 units left of the surface. *)
Definition overLeftEdge : Rect := mkRect (-10) 20 100 100.

(** A placement that hangs over the left and the top edge. *)
Definition overCorner : Rect := mkRect (-10) (-20) 100 100.

(** A data URL that declares PNG and whose payload is no base64. *)
Definition undecodable : string := "data:image/png;base64,@@@@".

(** A data URL that declares JPEG and whose payload contains [image/png]. *)
Definition mislabelled : string := "data:image/jpeg;base64,AAAimage/png".

Definition seal : Stamp := mkStamp "seal-1" pngStamp "seal.png".

Definition sealOnPage1 : StoreState :=
  mkStoreState [mkPageStamp 1 "seal-1" overCorner] [seal].

(** The placement of page 1 names a stamp that has been removed. *)
Definition sealRemoved : StoreState :=
  mkStoreState [mkPageStamp 1 "seal-1" overCorner] [].

(** An editing surface with nothing on it and the seal selected. *)
Definition emptySurface : StampAdder.World :=
  StampAdder.mkWorld
    (StampAdder.mkStore (Some seal) None)
    (StampAdder.mkCanvas 500 FABRIC_CANVAS_HEIGHT [] None)
    0.

(** What the hook holds in the render of [emptySurface]: the seal is
    selected and nothing is placed. *)
Definition firstRender : StampAdder.Hook :=
  StampAdder.useStampAdder (StampAdder.store emptySurface).

(** Two calls through the hook of the first render; the image of the
    second loads first, and a statement after [targetCanvas.add] throws
    while the image of the first is processed. *)
Definition overlappingCalls : list StampAdder.Happening :=
  [StampAdder.Call firstRender
     (StampAdder.LoadedThrows 200 50 StampAdder.InSetStampObject);
   StampAdder.Call firstRender (StampAdder.Loaded 80 80);
   StampAdder.Settle 1;
   StampAdder.Settle 0].

(** Two images that load: one of 200 x 50, one of 80 x 80. *)
Definition twoLoads : list StampAdder.ImageLoad :=
  [StampAdder.Loaded 200 50; StampAdder.Loaded 80 80].

(** An [addStamp] that appends the new stamp to the library. *)
Definition appendStamp (stamp : Stamp) (stamps : list Stamp) : list Stamp :=
  stamps ++ [stamp].

Definition fiveStamps : list Stamp :=
  [mkStamp "1" pngStamp "a.png"; mkStamp "2" pngStamp "b.png";
   mkStamp "3" pngStamp "c.png"; mkStamp "4" pngStamp "d.png";
   mkStamp "5" pngStamp "e.png"].

Definition sixthUpload : StampUploader.ChangeEvent :=
  StampUploader.mkChange (Some "f.png") true (Some pngStamp) "6".

End Examples.

(* ================================================================== *)
(** ** Selecting a stamp in the [StampUploader] component *)

Module StampSelection.

Import Pdf.
Open Scope string_scope.
Open Scope list_scope.

Inductive Info : Type :=
| StampSelected (stampName : string).   (* `도장 "${stamp.name}"이(가) 선택되었습니다.` *)

(** [handleStampSelect(stamp)], on the [selectedStamp] of the store.
    Modelled from the spec: the store's [selectStamp] action ([@/store] is
    not among the sources), which replaces the selected stamp. *)
Definition handleStampSelect (selectedStamp : option Stamp) (stamp : Stamp)
  : option Stamp * list Info :=
  match selectedStamp with
  | Some selected =>
      if String.eqb (id selected) (id stamp) then (None, [])
      else (Some stamp, [StampSelected (stamp_name stamp)])
  | None => (Some stamp, [StampSelected (stamp_name stamp)])
  end.

(** The stamp selected after a series of clicks. *)
Definition clicks (selectedStamp : option Stamp) (stamps : list Stamp)
  : option Stamp :=
  fold_left (fun selected stamp => fst (handleStampSelect selected stamp))
            stamps selectedStamp.

(** The stamp with this identifier is the selected one. *)
Definition is_selected (selectedStamp : option Stamp) (stampId : string) : bool :=
  match selectedStamp with
  | Some selected => String.eqb (id selected) stampId
  | None => false
  end.

End StampSelection.

(* ================================================================== *)
(** ** Further notions and examples *)

Module More.

Import JS Pdf PdfUtils.
Open Scope string_scope.
Open Scope list_scope.
Open Scope float_scope.

(** The errors a run logs with [console.error], in order. *)
Fixpoint logged (t : list Event) : list Error :=
  match t with
  | [] => []
  | ConsoleError e :: t' => e :: logged t'
  | _ :: t' => logged t'
  end.

(** A string without a comma. *)
Fixpoint comma_free (s : string) : bool :=
  match s with
  | EmptyString => true
  | String c s' => negb (Ascii.eqb c ","%char) && comma_free s'
  end.

(** A document without pages. *)
Definition noPages : File := mkFile "empty.pdf" (PdfBytes []).

(** A file that is no PDF. *)
Definition textFile : File := mkFile "notes.txt" NotAPdf.

End More.

(* ================================================================== *)
(** * Properties *)

Import JS Pdf PdfUtils.
Open Scope string_scope.
Open Scope list_scope.
Open Scope float_scope.

(** ** The constants of the editing surface *)

Lemma FABRIC_CANVAS_HEIGHT_value :
  FABRIC_CANVAS_HEIGHT = 0x1.618e147ae147bp+9 /\
  toFixed2_hundredths (FABRIC_CANVAS_WIDTH * PrimFloat.sqrt 2) = Some 70711%Z /\
  FABRIC_CANVAS_HEIGHT = 70711 / 100.
Proof. repeat split; vm_compute; reflexivity. Qed.

(** ** Running the compositor *)

Lemma embedStamp_ok pf stampImage imageData :
  embeddable pf stampImage = Some imageData ->
  embedStamp pf stampImage
  = ([Atob (base64Of stampImage); EmbedPng imageData], inr imageData).
Proof.
  unfold embeddable, embedStamp, dataURLToBytes, stampBytes, embedPng.
  destruct (startsWith stampImage "data:"); [|discriminate].
  destruct (atob (base64Of stampImage)) as [bin|]; [|discriminate].
  destruct (includes stampImage "image/png"); [|discriminate].
  destruct (png_decodes pf _) eqn:E; [|discriminate].
  intros [= <-]. cbn. rewrite E. reflexivity.
Qed.

Lemma embedStamp_inv pf stampImage imageData :
  result (embedStamp pf stampImage) = inr imageData ->
  embeddable pf stampImage = Some imageData.
Proof.
  unfold embeddable, embedStamp, dataURLToBytes, stampBytes, embedPng.
  destruct (startsWith stampImage "data:"); [|discriminate].
  destruct (atob (base64Of stampImage)) as [bin|]; [|discriminate].
  cbn. destruct (includes stampImage "image/png"); [|discriminate].
  cbn. destruct (png_decodes pf _) eqn:E; cbn; [|discriminate].
  intros [= <-]. reflexivity.
Qed.

Lemma in_range_check pageNumber pages :
  in_range pageNumber pages ->
  (pageNumber <? 1)%Z || (pageNumber >? numPages pages)%Z = false.
Proof. unfold in_range. intros H. apply orb_false_intro; lia. Qed.

Lemma out_of_range_check pageNumber pages :
  ~ in_range pageNumber pages ->
  (pageNumber <? 1)%Z || (pageNumber >? numPages pages)%Z = true.
Proof.
  unfold in_range. intros H.
  destruct (pageNumber <? 1)%Z eqn:E1; [reflexivity|].
  destruct (pageNumber >? numPages pages)%Z eqn:E2; [reflexivity|]. lia.
Qed.

Lemma in_range_page pageNumber pages :
  in_range pageNumber pages ->
  exists page, nth_error pages (Z.to_nat (pageNumber - 1)) = Some page.
Proof.
  unfold in_range, numPages. intros H.
  destruct (nth_error pages (Z.to_nat (pageNumber - 1))) eqn:E; [eauto|].
  apply nth_error_None in E. lia.
Qed.

(** The run of [addStampToPDF] on a document that parses, with a stamp
    that embeds and a page number in range. *)
Lemma addStampToPDF_ok pf file pages stampImage imageData position pageNumber page :
  bytes file = PdfBytes pages ->
  embeddable pf stampImage = Some imageData ->
  in_range pageNumber pages ->
  nth_error pages (Z.to_nat (pageNumber - 1)) = Some page ->
  let at_ := stampRect position (page_width page) (page_height page) in
  addStampToPDF pf file stampImage position pageNumber
  = ([Enter_addStampToPDF stampImage position pageNumber; ArrayBuffer; PDFDocumentLoad;
      Atob (base64Of stampImage); EmbedPng imageData; GetPages;
      DrawImage (Z.to_nat (pageNumber - 1)) at_; Save],
     inr (PdfBytes (replace_nth (Z.to_nat (pageNumber - 1))
                                (drawImage page imageData at_) pages))).
Proof.
  intros Hb He Hr Hp. unfold addStampToPDF, arrayBuffer, PDFDocument_load.
  rewrite Hb. cbn. rewrite (embedStamp_ok _ _ _ He). cbn.
  rewrite (in_range_check _ _ Hr). cbn. rewrite Hp. reflexivity.
Qed.

(** Whatever [addStampToPDF] returns is the document with one image added
    to the requested page, at [stampRect]. *)
Lemma addStampToPDF_inv pf file stampImage position pageNumber modified :
  result (addStampToPDF pf file stampImage position pageNumber) = inr modified ->
  exists pages page imageData,
    bytes file = PdfBytes pages /\
    embeddable pf stampImage = Some imageData /\
    in_range pageNumber pages /\
    nth_error pages (Z.to_nat (pageNumber - 1)) = Some page /\
    modified = PdfBytes (replace_nth (Z.to_nat (pageNumber - 1))
                 (drawImage page imageData
                    (stampRect position (page_width page) (page_height page)))
                 pages).
Proof.
  unfold addStampToPDF, arrayBuffer, PDFDocument_load.
  destruct (bytes file) as [|pages] eqn:Hb; cbn; [discriminate|].
  destruct (embedStamp pf stampImage) as [t [e|imageData]] eqn:He; cbn;
    [discriminate|].
  assert (Hemb : embeddable pf stampImage = Some imageData)
    by (apply embedStamp_inv; rewrite He; reflexivity).
  destruct ((pageNumber <? 1)%Z || (pageNumber >? numPages pages)%Z) eqn:Hc;
    cbn; [discriminate|].
  destruct (nth_error pages (Z.to_nat (pageNumber - 1))) as [page|] eqn:Hp;
    cbn; [|discriminate].
  intros [= <-]. exists pages, page, imageData.
  repeat split; auto; apply orb_false_elim in Hc; unfold in_range; lia.
Qed.

Lemma stampPagesFrom_eq imageData position pages : forall i,
  stampPagesFrom imageData position i pages
  = (drawEventsFrom position i pages,
     inr (List.map (stampedPage imageData position) pages)).
Proof.
  induction pages as [|page rest IH]; intros i; cbn; [reflexivity|].
  rewrite IH. cbn. rewrite app_nil_r. reflexivity.
Qed.

(** The run of [addStampToAllPDFPages] on a document that parses, with a
    stamp that embeds. *)
Lemma addStampToAllPDFPages_ok pf file pages stampImage imageData position :
  bytes file = PdfBytes pages ->
  embeddable pf stampImage = Some imageData ->
  addStampToAllPDFPages pf file stampImage position
  = ([ArrayBuffer; PDFDocumentLoad; GetPages; Atob (base64Of stampImage);
      EmbedPng imageData] ++ drawEventsFrom position 0 pages ++ [Save],
     inr (PdfBytes (List.map (stampedPage imageData position) pages))).
Proof.
  intros Hb He. unfold addStampToAllPDFPages, arrayBuffer, PDFDocument_load.
  rewrite Hb. cbn. rewrite (embedStamp_ok _ _ _ He). cbn.
  rewrite stampPagesFrom_eq. cbn. reflexivity.
Qed.

Lemma addStampToAllPDFPages_inv pf file stampImage position modified :
  result (addStampToAllPDFPages pf file stampImage position) = inr modified ->
  exists pages imageData,
    bytes file = PdfBytes pages /\
    embeddable pf stampImage = Some imageData /\
    modified = PdfBytes (List.map (stampedPage imageData position) pages).
Proof.
  unfold addStampToAllPDFPages, arrayBuffer, PDFDocument_load.
  destruct (bytes file) as [|pages] eqn:Hb; cbn; [discriminate|].
  destruct (embedStamp pf stampImage) as [t [e|imageData]] eqn:He; cbn;
    [discriminate|].
  assert (Hemb : embeddable pf stampImage = Some imageData)
    by (apply embedStamp_inv; rewrite He; reflexivity).
  rewrite stampPagesFrom_eq. cbn. intros [= <-]. eauto.
Qed.

Lemma nth_error_map_stamped imageData position pages i page :
  nth_error pages i = Some page ->
  nth_error (List.map (stampedPage imageData position) pages) i
  = Some (stampedPage imageData position page).
Proof. intros H. rewrite nth_error_map, H. reflexivity. Qed.

Lemma drawEventsFrom_nth position pages : forall i k page,
  nth_error pages k = Some page ->
  nth_error (drawEventsFrom position i pages) k
  = Some (DrawImage (i + k)
            (stampRect position (page_width page) (page_height page))).
Proof.
  induction pages as [|p rest IH]; intros i [|k] page H; cbn in *;
    try discriminate.
  - injection H as <-. rewrite Nat.add_0_r. reflexivity.
  - rewrite (IH (S i) k page H). rewrite Nat.add_succ_r. reflexivity.
Qed.

(** ** C1: the coordinate transform of the compositors *)

(** C1, as stated, fails: a placement 10 units left of the surface is drawn
    by [addStampToPDF] at [x = -10] on a page of the surface's size, where
    section 4.1 puts [max(0, -10) = 0]. *)
Lemma transform_clamp_counterexample :
  let page := Examples.surfacePage in
  let drawn := stampRect (Some Examples.overLeftEdge)
                         (page_width page) (page_height page) in
  trace (addStampToPDF Examples.sturdy Examples.onePage Examples.pngStamp
                       (Some Examples.overLeftEdge) 1)
  = [Enter_addStampToPDF Examples.pngStamp (Some Examples.overLeftEdge) 1;
     ArrayBuffer; PDFDocumentLoad; Atob "iVBORw0KGgo=";
     EmbedPng [Byte.x89; Byte.x50; Byte.x4e; Byte.x47;
               Byte.x0d; Byte.x0a; Byte.x1a; Byte.x0a];
     GetPages; DrawImage 0 drawn; Save] /\
  x drawn = (-10) /\
  Math_max 0 (x Examples.overLeftEdge * (page_width page / 500)) = 0 /\
  x drawn <> Math_max 0 (x Examples.overLeftEdge * (page_width page / 500)) /\
  drawn <> toPageSpace_spec Examples.overLeftEdge
                            (page_width page) (page_height page).
Proof.
  cbv zeta. repeat split; try (vm_compute; reflexivity).
  - vm_compute. discriminate.
  - intros H. apply (f_equal x) in H. vm_compute in H. discriminate.
Qed.

(** C1, amended: for every placement and every page, the compositors draw
    the stamp with [width * (pageWidth / 500)],
    [height * (pageHeight / 707.11)], [x * scaleX] (not clamped) and
    [pageHeight - y * scaleY - height * scaleY]: [addStampToPDF] on the
    requested page, [addStampToAllPDFPages] on every page. *)
Theorem compositor_transform
    pf file pages stampImage imageData position pageNumber page :
  bytes file = PdfBytes pages ->
  embeddable pf stampImage = Some imageData ->
  in_range pageNumber pages ->
  nth_error pages (Z.to_nat (pageNumber - 1)) = Some page ->
  let pageRect (p : PDFPage) :=
    let scaleX := page_width p / 500 in
    let scaleY := page_height p / FABRIC_CANVAS_HEIGHT in
    mkRect (x position * scaleX)
           (page_height p - y position * scaleY - height position * scaleY)
           (width position * scaleX)
           (height position * scaleY) in
  FABRIC_CANVAS_HEIGHT = 70711 / 100 /\
  (forall W H,
     stampRect (Some position) W H
     = mkRect (x position * (W / 500))
              (H - y position * (H / FABRIC_CANVAS_HEIGHT)
                 - height position * (H / FABRIC_CANVAS_HEIGHT))
              (width position * (W / 500))
              (height position * (H / FABRIC_CANVAS_HEIGHT))) /\
  result (addStampToPDF pf file stampImage (Some position) pageNumber)
  = inr (PdfBytes (replace_nth (Z.to_nat (pageNumber - 1))
                     (drawImage page imageData (pageRect page)) pages)) /\
  In (DrawImage (Z.to_nat (pageNumber - 1)) (pageRect page))
     (trace (addStampToPDF pf file stampImage (Some position) pageNumber)) /\
  result (addStampToAllPDFPages pf file stampImage (Some position))
  = inr (PdfBytes (List.map (fun p => drawImage p imageData (pageRect p)) pages)).
Proof.
  intros Hb He Hr Hp pageRect.
  split; [vm_compute; reflexivity|].
  split; [reflexivity|].
  rewrite (addStampToPDF_ok _ _ _ _ _ (Some position) _ _ Hb He Hr Hp).
  rewrite (addStampToAllPDFPages_ok _ _ _ _ _ (Some position) Hb He).
  cbn [result trace fst snd]. repeat split.
  cbn. tauto.
Qed.

Lemma compositor_transform_witness :
  let pageRect := mkRect (-10 * (612 / 500))
                         (792 - 20 * (792 / FABRIC_CANVAS_HEIGHT)
                              - 100 * (792 / FABRIC_CANVAS_HEIGHT))
                         (100 * (612 / 500))
                         (100 * (792 / FABRIC_CANVAS_HEIGHT)) in
  In (DrawImage 1 pageRect)
     (trace (addStampToPDF Examples.sturdy Examples.threePages
               Examples.pngStamp (Some Examples.overLeftEdge) 2)).
Proof.
  refine (proj1 (proj2 (proj2 (proj2
    (compositor_transform Examples.sturdy Examples.threePages
       [Examples.surfacePage; Examples.letterPage; Examples.a3Page]
       Examples.pngStamp
       [Byte.x89; Byte.x50; Byte.x4e; Byte.x47;
        Byte.x0d; Byte.x0a; Byte.x1a; Byte.x0a]
       Examples.overLeftEdge 2 Examples.letterPage
       eq_refl eq_refl _ eq_refl))))).
  unfold in_range, numPages. cbn. lia.
Defined.

(** ** C6: the default placement *)

(** C6: for every page geometry [{W, H}], a compositor called without a
    placement draws the stamp at [{W/2 - 50, H/2 - 50, 100, 100}]; neither
    the width nor the height of the editing surface enters the rectangle.
    [addStampToPDF] draws it on the requested page, [addStampToAllPDFPages]
    on every page. *)
Theorem default_placement_centred
    pf file pages stampImage imageData pageNumber page :
  bytes file = PdfBytes pages ->
  embeddable pf stampImage = Some imageData ->
  in_range pageNumber pages ->
  nth_error pages (Z.to_nat (pageNumber - 1)) = Some page ->
  let centred (p : PDFPage) :=
    mkRect (page_width p / 2 - 50) (page_height p / 2 - 50) 100 100 in
  (forall W H, stampRect None W H = mkRect (W / 2 - 50) (H / 2 - 50) 100 100) /\
  result (addStampToPDF pf file stampImage None pageNumber)
  = inr (PdfBytes (replace_nth (Z.to_nat (pageNumber - 1))
                     (drawImage page imageData (centred page)) pages)) /\
  In (DrawImage (Z.to_nat (pageNumber - 1)) (centred page))
     (trace (addStampToPDF pf file stampImage None pageNumber)) /\
  result (addStampToAllPDFPages pf file stampImage None)
  = inr (PdfBytes (List.map (fun p => drawImage p imageData (centred p)) pages)).
Proof.
  intros Hb He Hr Hp centred.
  rewrite (addStampToPDF_ok _ _ _ _ _ None _ _ Hb He Hr Hp).
  rewrite (addStampToAllPDFPages_ok _ _ _ _ _ None Hb He).
  cbn [result trace fst snd]. repeat split.
  cbn. tauto.
Qed.

Lemma default_placement_centred_witness :
  result (addStampToPDF Examples.sturdy Examples.threePages
            Examples.pngStamp None 3)
  = inr (PdfBytes
           [Examples.surfacePage; Examples.letterPage;
            mkPage 842 1191
              [mkDrawn [Byte.x89; Byte.x50; Byte.x4e; Byte.x47;
                        Byte.x0d; Byte.x0a; Byte.x1a; Byte.x0a]
                       (mkRect (842 / 2 - 50) (1191 / 2 - 50) 100 100)]]).
Proof.
  refine (proj1 (proj2
    (default_placement_centred Examples.sturdy Examples.threePages
       [Examples.surfacePage; Examples.letterPage; Examples.a3Page]
       Examples.pngStamp
       [Byte.x89; Byte.x50; Byte.x4e; Byte.x47;
        Byte.x0d; Byte.x0a; Byte.x1a; Byte.x0a]
       3 Examples.a3Page eq_refl eq_refl _ eq_refl))).
  unfold in_range, numPages. cbn. lia.
Defined.

(** ** C4: every page is stamped against its own geometry *)

(** C4, as stated, fails: on the US Letter page of a three-page document a
    placement 10 units left of the surface is drawn at
    [x = -10 * (612 / 500)], which is negative, and not at the rectangle of
    section 4.1, whose [x] is [0]. *)
Lemma all_pages_clamp_counterexample :
  let t := trace (addStampToAllPDFPages Examples.sturdy Examples.threePages
                    Examples.pngStamp (Some Examples.overLeftEdge)) in
  let drawn := stampRect (Some Examples.overLeftEdge) 612 792 in
  In (DrawImage 1 drawn) t /\
  (x drawn <? 0) = true /\
  x (toPageSpace_spec Examples.overLeftEdge 612 792) = 0 /\
  ~ In (DrawImage 1 (toPageSpace_spec Examples.overLeftEdge 612 792)) t.
Proof.
  cbv zeta. repeat split; try (vm_compute; tauto).
  intros H. vm_compute in H.
  repeat (destruct H as [H|H]; [discriminate H|]). contradiction.
Qed.

(** C4, amended: for every document that parses and every placement,
    [addStampToAllPDFPages] draws the stamp once on every page, in page
    order, at the rectangle computed from that page's own width and height
    by the compositors' transform, whose [x] is [x * scaleX] without the
    clamp of section 4.1. *)
Theorem all_pages_own_geometry pf file pages stampImage imageData position :
  bytes file = PdfBytes pages ->
  embeddable pf stampImage = Some imageData ->
  let pageRect (p : PDFPage) :=
    let scaleX := page_width p / 500 in
    let scaleY := page_height p / FABRIC_CANVAS_HEIGHT in
    mkRect (x position * scaleX)
           (page_height p - y position * scaleY - height position * scaleY)
           (width position * scaleX)
           (height position * scaleY) in
  let run := addStampToAllPDFPages pf file stampImage (Some position) in
  exists pages',
    result run = inr (PdfBytes pages') /\
    List.length pages' = List.length pages /\
    (forall i page,
       nth_error pages i = Some page ->
       nth_error pages' i = Some (drawImage page imageData (pageRect page)) /\
       nth_error (filter is_draw (trace run)) i
       = Some (DrawImage i (pageRect page))).
Proof.
  intros Hb He pageRect run.
  exists (List.map (stampedPage imageData (Some position)) pages).
  unfold run. rewrite (addStampToAllPDFPages_ok _ _ _ _ _ (Some position) Hb He).
  cbn [result trace fst snd]. split; [reflexivity|].
  split; [apply length_map|].
  intros i page Hi. split.
  - rewrite (nth_error_map_stamped _ _ _ _ _ Hi). reflexivity.
  - cbn [app filter is_draw].
    assert (Hf : forall l k,
      filter is_draw (drawEventsFrom (Some position) k l ++ [Save])
      = drawEventsFrom (Some position) k l).
    { induction l as [|p l IH]; intros k; cbn; [reflexivity|].
      rewrite IH. reflexivity. }
    rewrite Hf. rewrite (drawEventsFrom_nth _ _ 0 i page Hi). reflexivity.
Qed.

Lemma all_pages_own_geometry_witness :
  exists pages',
    result (addStampToAllPDFPages Examples.sturdy Examples.threePages
              Examples.pngStamp (Some Examples.overLeftEdge))
    = inr (PdfBytes pages') /\
    List.length pages' = 3%nat.
Proof.
  destruct (all_pages_own_geometry Examples.sturdy Examples.threePages
       [Examples.surfacePage; Examples.letterPage; Examples.a3Page]
       Examples.pngStamp
       [Byte.x89; Byte.x50; Byte.x4e; Byte.x47;
        Byte.x0d; Byte.x0a; Byte.x1a; Byte.x0a]
       Examples.overLeftEdge eq_refl eq_refl) as [pages' [H1 [H2 _]]].
  exists pages'. split; assumption.
Defined.

(** ** Running the rasterizer *)

Lemma pdfPageToImage_not_a_pdf pf file pageNumber :
  bytes file = NotAPdf ->
  pdfPageToImage pf file pageNumber
  = ([CreateObjectURL (name file); GetDocument; ConsoleError PdfParseError;
      RevokeObjectURL],
     inr (mkPageImage "" (Some (PageProcessingFailed pageNumber))
                      (name file) pageNumber)).
Proof.
  intros Hb. unfold pdfPageToImage, getDocument. rewrite Hb. reflexivity.
Qed.

Lemma pdfPageToImage_out_of_range pf file pages pageNumber :
  bytes file = PdfBytes pages ->
  ~ in_range pageNumber pages ->
  pdfPageToImage pf file pageNumber
  = ([CreateObjectURL (name file); GetDocument;
      ConsoleError (InvalidPageNumber (numPages pages)); RevokeObjectURL],
     inr (mkPageImage "" (Some (PageProcessingFailed pageNumber))
                      (name file) pageNumber)).
Proof.
  intros Hb Hr. unfold pdfPageToImage, getDocument. rewrite Hb. cbn.
  rewrite (out_of_range_check _ _ Hr). reflexivity.
Qed.

Lemma pdfPageToImage_rendered pf file pages pageNumber page dataUrl :
  bytes file = PdfBytes pages ->
  in_range pageNumber pages ->
  nth_error pages (Z.to_nat (pageNumber - 1)) = Some page ->
  rasterize pf page = Some dataUrl ->
  pdfPageToImage pf file pageNumber
  = ([CreateObjectURL (name file); GetDocument; RenderPage pageNumber;
      RevokeObjectURL],
     inr (mkPageImage dataUrl None (name file) pageNumber)).
Proof.
  intros Hb Hr Hp Hd. unfold pdfPageToImage, getDocument, renderPageToImage.
  rewrite Hb. cbn. rewrite (in_range_check _ _ Hr). cbn.
  rewrite Hp, Hd. reflexivity.
Qed.

Lemma pdfPageToImage_render_fails pf file pages pageNumber page :
  bytes file = PdfBytes pages ->
  in_range pageNumber pages ->
  nth_error pages (Z.to_nat (pageNumber - 1)) = Some page ->
  rasterize pf page = None ->
  pdfPageToImage pf file pageNumber
  = ([CreateObjectURL (name file); GetDocument; RenderPage pageNumber;
      ConsoleError RenderError; RevokeObjectURL],
     inr (mkPageImage "" (Some (PageProcessingFailed pageNumber))
                      (name file) pageNumber)).
Proof.
  intros Hb Hr Hp Hd. unfold pdfPageToImage, getDocument, renderPageToImage.
  rewrite Hb. cbn. rewrite (in_range_check _ _ Hr). cbn.
  rewrite Hp, Hd. reflexivity.
Qed.

Lemma in_range_dec pageNumber pages :
  in_range pageNumber pages \/ ~ in_range pageNumber pages.
Proof. unfold in_range. lia. Qed.

(** [pdfPageToImage] reports every failure in its result: it never throws,
    and its image is empty exactly when [error] is set, unless the
    renderer itself delivers an empty image. *)
Lemma pdfPageToImage_returns pf file pageNumber :
  exists r, result (pdfPageToImage pf file pageNumber) = inr r /\
            fileName r = name file /\ image_pageNumber r = pageNumber /\
            (error r <> None -> image r = "").
Proof.
  destruct (bytes file) as [|pages] eqn:Hb.
  - rewrite (pdfPageToImage_not_a_pdf _ _ _ Hb). cbn. eauto 6.
  - destruct (in_range_dec pageNumber pages) as [Hr|Hr].
    + destruct (in_range_page _ _ Hr) as [page Hp].
      destruct (rasterize pf page) as [dataUrl|] eqn:Hd.
      * rewrite (pdfPageToImage_rendered _ _ _ _ _ _ Hb Hr Hp Hd). cbn.
        eexists. repeat split. cbn. congruence.
      * rewrite (pdfPageToImage_render_fails _ _ _ _ _ Hb Hr Hp Hd). cbn.
        eauto 6.
    + rewrite (pdfPageToImage_out_of_range _ _ _ _ Hb Hr). cbn. eauto 6.
Qed.

(** ** Running [embedStamp] *)

Lemma embedStamp_fails pf stampImage :
  embeddable pf stampImage = None ->
  exists t e,
    embedStamp pf stampImage = (t, inl e) /\
    (e = NotDataURL \/ e = InvalidCharacterError \/ e = NotPng
     \/ e = PngDecodeError) /\
    (t = [] \/ t = [Atob (base64Of stampImage)]
     \/ exists imageData,
          t = [Atob (base64Of stampImage); EmbedPng imageData]).
Proof.
  unfold embeddable, embedStamp, dataURLToBytes, stampBytes, embedPng.
  destruct (startsWith stampImage "data:"); [|cbn; eauto 10].
  destruct (atob (base64Of stampImage)) as [bin|]; cbn; [|eauto 10].
  destruct (includes stampImage "image/png"); cbn; [|eauto 10].
  destruct (png_decodes pf _); cbn; [discriminate|]. eauto 12.
Qed.

(** The run of [addStampToPDF] when the stamp does not embed. *)
Lemma addStampToPDF_stamp_fails pf file pages stampImage position pageNumber :
  bytes file = PdfBytes pages ->
  embeddable pf stampImage = None ->
  exists t e,
    embedStamp pf stampImage = (t, inl e) /\
    addStampToPDF pf file stampImage position pageNumber
    = ([Enter_addStampToPDF stampImage position pageNumber; ArrayBuffer; PDFDocumentLoad]
         ++ t ++ [ConsoleError e],
       inl StampApplyFailed).
Proof.
  intros Hb He. destruct (embedStamp_fails _ _ He) as (t & e & Hrun & _ & _).
  exists t, e. split; [assumption|].
  unfold addStampToPDF, arrayBuffer, PDFDocument_load. rewrite Hb. cbn.
  rewrite Hrun. reflexivity.
Qed.

(** The run of [addStampToPDF] when the page number is out of range. *)
Lemma addStampToPDF_out_of_range
    pf file pages stampImage imageData position pageNumber :
  bytes file = PdfBytes pages ->
  embeddable pf stampImage = Some imageData ->
  ~ in_range pageNumber pages ->
  addStampToPDF pf file stampImage position pageNumber
  = ([Enter_addStampToPDF stampImage position pageNumber; ArrayBuffer; PDFDocumentLoad;
      Atob (base64Of stampImage); EmbedPng imageData; GetPages;
      ConsoleError (InvalidPageNumber (numPages pages))],
     inl StampApplyFailed).
Proof.
  intros Hb He Hr. unfold addStampToPDF, arrayBuffer, PDFDocument_load.
  rewrite Hb. cbn. rewrite (embedStamp_ok _ _ _ He). cbn.
  rewrite (out_of_range_check _ _ Hr). reflexivity.
Qed.

(** ** C2: when the compositor checks the page number *)

(** C2, as stated, fails: asked for page 0 of a one-page document,
    [addStampToPDF] has read and parsed the document, decoded the stamp and
    embedded the PNG before it rejects the page number. *)
Lemma page_check_not_eager_counterexample :
  let run := addStampToPDF Examples.sturdy Examples.onePage
                           Examples.pngStamp None 0 in
  let png := [Byte.x89; Byte.x50; Byte.x4e; Byte.x47;
              Byte.x0d; Byte.x0a; Byte.x1a; Byte.x0a] in
  run = ([Enter_addStampToPDF Examples.pngStamp None 0; ArrayBuffer; PDFDocumentLoad;
          Atob "iVBORw0KGgo="; EmbedPng png; GetPages;
          ConsoleError (InvalidPageNumber 1)],
         inl StampApplyFailed) /\
  In PDFDocumentLoad (before_page_rejection (trace run)) /\
  In (EmbedPng png) (before_page_rejection (trace run)).
Proof. cbv zeta. repeat split; vm_compute; tauto. Qed.

(** C2, amended: for every document that parses and every out-of-range
    page number, [addStampToPDF] fails without drawing or saving anything,
    but it examines the page number only after it has parsed the document,
    decoded the stamp and embedded the PNG: when the stamp embeds, these
    calls precede the rejection, and when it does not, the call fails for
    the stamp and the page number is never examined. *)
Theorem page_check_follows_embedding
    pf file pages stampImage position pageNumber :
  bytes file = PdfBytes pages ->
  ~ in_range pageNumber pages ->
  let run := addStampToPDF pf file stampImage position pageNumber in
  result run = inl StampApplyFailed /\
  (forall i at_, ~ In (DrawImage i at_) (trace run)) /\
  ~ In Save (trace run) /\
  (forall imageData,
     embeddable pf stampImage = Some imageData ->
     trace run
     = [Enter_addStampToPDF stampImage position pageNumber; ArrayBuffer; PDFDocumentLoad;
        Atob (base64Of stampImage); EmbedPng imageData; GetPages;
        ConsoleError (InvalidPageNumber (numPages pages))]) /\
  (embeddable pf stampImage = None ->
     forall P, ~ In (ConsoleError (InvalidPageNumber P)) (trace run)).
Proof.
  intros Hb Hr run. unfold run.
  destruct (embeddable pf stampImage) as [imageData|] eqn:He.
  - rewrite (addStampToPDF_out_of_range _ _ _ _ _ position _ Hb He Hr).
    cbn [result trace fst snd]. repeat split.
    + intros i at_ H. cbn in H.
      repeat (destruct H as [H|H]; [discriminate H|]). contradiction.
    + intros H. cbn in H.
      repeat (destruct H as [H|H]; [discriminate H|]). contradiction.
    + intros d [= <-]. reflexivity.
    + discriminate.
  - destruct (addStampToPDF_stamp_fails _ _ _ _ position pageNumber Hb He)
      as (t & e & Hrun & ->).
    destruct (embedStamp_fails _ _ He) as (t' & e' & Hrun' & He' & Ht').
    rewrite Hrun in Hrun'. injection Hrun' as <- <-.
    cbn [result trace fst snd]. repeat split.
    + intros i at_ H. cbn in H.
      repeat (destruct H as [H|H]; [discriminate H|]).
      apply in_app_or in H. destruct H as [H|H].
      * destruct Ht' as [->|[->|[d ->]]]; cbn in H;
          repeat (destruct H as [H|H]; [discriminate H|]); contradiction.
      * cbn in H. destruct H as [H|H]; [discriminate H|contradiction].
    + intros H. cbn in H.
      repeat (destruct H as [H|H]; [discriminate H|]).
      apply in_app_or in H. destruct H as [H|H].
      * destruct Ht' as [->|[->|[d ->]]]; cbn in H;
          repeat (destruct H as [H|H]; [discriminate H|]); contradiction.
      * cbn in H. destruct H as [H|H]; [discriminate H|contradiction].
    + discriminate.
    + intros _ P H. cbn in H.
      repeat (destruct H as [H|H]; [discriminate H|]).
      apply in_app_or in H. destruct H as [H|H].
      * destruct Ht' as [->|[->|[d ->]]]; cbn in H;
          repeat (destruct H as [H|H]; [discriminate H|]); contradiction.
      * cbn in H. destruct H as [H|H]; [|contradiction].
        injection H as ->.
        destruct He' as [?|[?|[?|?]]]; discriminate.
Qed.

Lemma page_check_follows_embedding_witness :
  result (addStampToPDF Examples.sturdy Examples.onePage
                        Examples.pngStamp None 2)
  = inl StampApplyFailed.
Proof.
  refine (proj1
    (page_check_follows_embedding Examples.sturdy Examples.onePage
       [Examples.surfacePage] Examples.pngStamp None 2 eq_refl _)).
  unfold in_range, numPages. cbn. lia.
Defined.

(** ** C3: page bounds *)

(** C3, as stated, fails: asked for page 0 of a one-page document,
    [pdfPageToImage] returns a result whose [error] names the page but not
    the valid range, and [addStampToPDF] throws the general stamping error;
    neither fails with the invalid-page-number error, which is only logged. *)
Lemma invalid_page_error_counterexample :
  let rendered := pdfPageToImage Examples.sturdy Examples.onePage 0 in
  let stamped := addStampToPDF Examples.sturdy Examples.onePage
                               Examples.pngStamp None 0 in
  result rendered
  = inr (mkPageImage "" (Some (PageProcessingFailed 0)) "one.pdf" 0) /\
  result rendered <> inl (InvalidPageNumber 1) /\
  result stamped = inl StampApplyFailed /\
  result stamped <> inl (InvalidPageNumber 1).
Proof. cbv zeta. repeat split; vm_compute; try reflexivity; discriminate. Qed.

(** C3, amended: for every document with [P] pages, and in particular for
    the page numbers 0, -1 and [P + 1], an out-of-range page number makes
    [pdfPageToImage] return an empty image with an error that names the
    page, and makes [addStampToPDF] (given a stamp that embeds) throw the
    general stamping error; the invalid-page-number error with the range
    [1..P] is logged by both, not handed to the caller. For every page
    number in [1..P], [pdfPageToImage] returns the page's image without an
    error whenever the renderer renders the page, and [addStampToPDF]
    returns the stamped document. *)
Theorem page_bounds pf file pages stampImage imageData position pageNumber :
  bytes file = PdfBytes pages ->
  embeddable pf stampImage = Some imageData ->
  let P := numPages pages in
  let rendered := pdfPageToImage pf file pageNumber in
  let stamped := addStampToPDF pf file stampImage position pageNumber in
  (~ in_range 0 pages /\ ~ in_range (-1) pages /\ ~ in_range (P + 1) pages) /\
  (~ in_range pageNumber pages ->
     result rendered
     = inr (mkPageImage "" (Some (PageProcessingFailed pageNumber))
                        (name file) pageNumber) /\
     In (ConsoleError (InvalidPageNumber P)) (trace rendered) /\
     result stamped = inl StampApplyFailed /\
     In (ConsoleError (InvalidPageNumber P)) (trace stamped)) /\
  (in_range pageNumber pages ->
     (forall page dataUrl,
        nth_error pages (Z.to_nat (pageNumber - 1)) = Some page ->
        rasterize pf page = Some dataUrl ->
        result rendered = inr (mkPageImage dataUrl None (name file) pageNumber)) /\
     (exists page,
        nth_error pages (Z.to_nat (pageNumber - 1)) = Some page /\
        result stamped
        = inr (PdfBytes (replace_nth (Z.to_nat (pageNumber - 1))
                           (stampedPage imageData position page) pages)))).
Proof.
  intros Hb He P rendered stamped. split; [|split].
  - unfold in_range, P. lia.
  - intros Hr. unfold rendered, stamped.
    rewrite (pdfPageToImage_out_of_range _ _ _ _ Hb Hr).
    rewrite (addStampToPDF_out_of_range _ _ _ _ _ position _ Hb He Hr).
    cbn. tauto.
  - intros Hr. split.
    + intros page dataUrl Hp Hd. unfold rendered.
      rewrite (pdfPageToImage_rendered _ _ _ _ _ _ Hb Hr Hp Hd). reflexivity.
    + destruct (in_range_page _ _ Hr) as [page Hp]. exists page.
      split; [assumption|]. unfold stamped.
      rewrite (addStampToPDF_ok _ _ _ _ _ position _ _ Hb He Hr Hp).
      reflexivity.
Qed.

Lemma page_bounds_witness :
  result (addStampToPDF Examples.sturdy Examples.threePages
                        Examples.pngStamp None 4)
  = inl StampApplyFailed /\
  In (ConsoleError (InvalidPageNumber 3))
     (trace (addStampToPDF Examples.sturdy Examples.threePages
                           Examples.pngStamp None 4)).
Proof.
  refine (proj2 (proj2 (proj1 (proj2
    (page_bounds Examples.sturdy Examples.threePages
       [Examples.surfacePage; Examples.letterPage; Examples.a3Page]
       Examples.pngStamp
       [Byte.x89; Byte.x50; Byte.x4e; Byte.x47;
        Byte.x0d; Byte.x0a; Byte.x1a; Byte.x0a]
       None 4 eq_refl eq_refl)) _))).
  unfold in_range, numPages. cbn. lia.
Defined.

(** ** C5: the fallback of [getPageImageByFile] *)

Lemma fallback_run pf file pageNumber e :
  result (bind (emit (ConsoleError e)) (fun _ =>
          bind (pdfPageToImage pf file pageNumber) (fun r => ret (image r))))
  = inr (rasterization pf file pageNumber).
Proof.
  destruct (pdfPageToImage_returns pf file pageNumber) as (r & Hr & _).
  unfold rasterization. destruct (pdfPageToImage pf file pageNumber) as [t res].
  cbn in *. subst res. reflexivity.
Qed.

Lemma image_run pf file pageNumber :
  result (bind (pdfPageToImage pf file pageNumber) (fun r => ret (image r)))
  = inr (rasterization pf file pageNumber).
Proof.
  destruct (pdfPageToImage_returns pf file pageNumber) as (r & Hr & _).
  unfold rasterization. destruct (pdfPageToImage pf file pageNumber) as [t res].
  cbn in *. subst res. reflexivity.
Qed.

Lemma result_bind_inl {A B} (m : M A) (f : A -> M B) e :
  result m = inl e -> result (bind m f) = inl e.
Proof. destruct m as [t [e'|a]]; cbn; congruence. Qed.

Lemma result_bind_inr {A B} (m : M A) (f : A -> M B) a :
  result m = inr a -> result (bind m f) = result (f a).
Proof.
  destruct m as [t [e'|a']]; cbn; [discriminate|].
  intros [= ->]. destruct (f a). reflexivity.
Qed.

Lemma result_try_catch_inl {A} (m : M A) (h : Error -> M A) e :
  result m = inl e -> result (try_catch m h) = result (h e).
Proof.
  destruct m as [t [e'|a]]; cbn; [|discriminate].
  intros [= ->]. destruct (h e). reflexivity.
Qed.

Lemma result_try_catch_inr {A} (m : M A) (h : Error -> M A) a :
  result m = inr a -> result (try_catch m h) = inr a.
Proof. destruct m as [t [e'|a']]; cbn; congruence. Qed.

(** C5, at the failing input: a document of one page, the seal in the
    library and a placement recorded for page 1, where the renderer throws
    on the stamped page. [addStampToPDF] returns the stamped document and
    [pdfPageToImage] catches the renderer's error itself and reports the
    empty image, so the [catch] of [getPageImageByFile] never runs: the
    request returns the empty image, not the rasterization of the
    unstamped page. *)
Lemma fallback_counterexample :
  let run := getPageImageByFile Examples.fragile Examples.sealOnPage1
                                Examples.onePage 1 in
  let stamped :=
    PdfBytes [stampedPage [Byte.x89; Byte.x50; Byte.x4e; Byte.x47;
                           Byte.x0d; Byte.x0a; Byte.x1a; Byte.x0a]
                          (Some (clamped Examples.overCorner))
                          Examples.surfacePage] in
  result (addStampToPDF Examples.fragile Examples.onePage Examples.pngStamp
                        (Some (clamped Examples.overCorner)) 1)
  = inr stamped /\
  result (pdfPageToImage Examples.fragile (mkFile "one.pdf" stamped) 1)
  = inr (mkPageImage "" (Some (PageProcessingFailed 1)) "one.pdf" 1) /\
  result run = inr "" /\
  rasterization Examples.fragile Examples.onePage 1
  = "data:image/png;base64,cGxhaW4=" /\
  result run <> inr (rasterization Examples.fragile Examples.onePage 1).
Proof. cbv zeta. repeat split; vm_compute; try reflexivity; discriminate. Qed.

(** Once the stamped document exists, [getPageImageByFile] returns what
    [pdfPageToImage] makes of it. *)
Lemma page_image_after_compositing
    pf store file pageNumber pageStamp stamp modified :
  find (fun stamp => (Pdf.pageNumber stamp =? pageNumber)%Z) (pageStamps store)
  = Some pageStamp ->
  find (fun s => String.eqb (id s) (stampId pageStamp)) (stamps store)
  = Some stamp ->
  result (addStampToPDF pf file (src stamp)
            (Some (clamped (position pageStamp))) pageNumber)
  = inr modified ->
  result (getPageImageByFile pf store file pageNumber)
  = inr (rasterization pf (mkFile (name file) modified) pageNumber).
Proof.
  intros Hfind Hl Hc. unfold getPageImageByFile. rewrite Hfind, Hl.
  apply result_try_catch_inr.
  rewrite (result_bind_inr _ _ stamp) by reflexivity.
  rewrite (result_bind_inr _ _ modified) by exact Hc.
  apply image_run.
Qed.

(** ** Traces *)

Lemma trace_bind {A B} (m : M A) (f : A -> M B) :
  trace (bind m f)
  = trace m ++ match result m with
               | inl _ => []
               | inr a => trace (f a)
               end.
Proof.
  destruct m as [t [e|a]]; cbn; [rewrite app_nil_r; reflexivity|].
  destruct (f a). reflexivity.
Qed.

Lemma trace_try_catch {A} (m : M A) (h : Error -> M A) :
  trace (try_catch m h)
  = trace m ++ match result m with
               | inl e => trace (h e)
               | inr _ => []
               end.
Proof.
  destruct m as [t [e|a]]; cbn; [|rewrite app_nil_r; reflexivity].
  destruct (h e). reflexivity.
Qed.

Lemma drawEventsFrom_no_embed position pages : forall i imageData,
  ~ In (EmbedPng imageData) (drawEventsFrom position i pages).
Proof.
  induction pages as [|p rest IH]; intros i d H; cbn in H; [contradiction|].
  destruct H as [H|H]; [discriminate H|]. exact (IH _ _ H).
Qed.

Lemma reaches_embedding_app t1 t2 :
  reaches_embedding (t1 ++ t2) <-> reaches_embedding t1 \/ reaches_embedding t2.
Proof.
  unfold reaches_embedding. split.
  - intros [d H]. apply in_app_or in H. destruct H; eauto.
  - intros [[d H]|[d H]]; exists d; apply in_or_app; auto.
Qed.

(** [embedStamp] gets to [embedPng] exactly through its two checks and the
    decoding between them. *)
Lemma embedStamp_reaches pf stampImage :
  reaches_embedding (trace (embedStamp pf stampImage)) <->
  startsWith stampImage "data:" = true /\
  atob (base64Of stampImage) <> None /\
  includes stampImage "image/png" = true.
Proof.
  unfold reaches_embedding, embedStamp, dataURLToBytes, embedPng.
  destruct (startsWith stampImage "data:"); cbn.
  2:{ split; [intros [d []]|intros [H _]; discriminate H]. }
  destruct (atob (base64Of stampImage)) as [bin|]; cbn.
  2:{ split; [intros [d [H|[]]]; discriminate H|intros [_ [H _]]; congruence]. }
  destruct (includes stampImage "image/png"); cbn.
  2:{ split; [intros [d [H|[]]]; discriminate H|intros [_ [_ H]]; discriminate H]. }
  split; [intros _; repeat split; congruence|intros _].
  eexists. destruct (png_decodes pf _); cbn; right; left; reflexivity.
Qed.

Lemma addStampToPDF_reaches pf file pages stampImage position pageNumber :
  bytes file = PdfBytes pages ->
  reaches_embedding
    (trace (addStampToPDF pf file stampImage position pageNumber))
  <-> reaches_embedding (trace (embedStamp pf stampImage)).
Proof.
  intros Hb. destruct (embeddable pf stampImage) as [d|] eqn:He.
  - rewrite (embedStamp_ok _ _ _ He).
    destruct (in_range_dec pageNumber pages) as [Hr|Hr].
    + destruct (in_range_page _ _ Hr) as [page Hp].
      rewrite (addStampToPDF_ok _ _ _ _ _ position _ _ Hb He Hr Hp).
      unfold reaches_embedding. cbn. split; intros _; exists d; tauto.
    + rewrite (addStampToPDF_out_of_range _ _ _ _ _ position _ Hb He Hr).
      unfold reaches_embedding. cbn. split; intros _; exists d; tauto.
  - destruct (addStampToPDF_stamp_fails _ _ _ _ position pageNumber Hb He)
      as (t & e & Hrun & ->).
    rewrite Hrun. cbn [trace fst]. rewrite !reaches_embedding_app.
    unfold reaches_embedding at 1 3. cbn. split; [|tauto].
    intros [[x [H|[H|[H|[]]]]]|[H|[x [H|[]]]]]; try discriminate H. exact H.
Qed.

Lemma addStampToAllPDFPages_stamp_fails pf file pages stampImage position :
  bytes file = PdfBytes pages ->
  embeddable pf stampImage = None ->
  exists t e,
    embedStamp pf stampImage = (t, inl e) /\
    addStampToAllPDFPages pf file stampImage position
    = ([ArrayBuffer; PDFDocumentLoad; GetPages] ++ t ++ [ConsoleError e],
       inl StampApplyFailed).
Proof.
  intros Hb He. destruct (embedStamp_fails _ _ He) as (t & e & Hrun & _ & _).
  exists t, e. split; [assumption|].
  unfold addStampToAllPDFPages, arrayBuffer, PDFDocument_load. rewrite Hb. cbn.
  rewrite Hrun. reflexivity.
Qed.

Lemma addStampToAllPDFPages_reaches pf file pages stampImage position :
  bytes file = PdfBytes pages ->
  reaches_embedding (trace (addStampToAllPDFPages pf file stampImage position))
  <-> reaches_embedding (trace (embedStamp pf stampImage)).
Proof.
  intros Hb. destruct (embeddable pf stampImage) as [d|] eqn:He.
  - rewrite (embedStamp_ok _ _ _ He).
    rewrite (addStampToAllPDFPages_ok _ _ _ _ _ position Hb He).
    unfold reaches_embedding. cbn. split; intros _; exists d; tauto.
  - destruct (addStampToAllPDFPages_stamp_fails _ _ _ _ position Hb He)
      as (t & e & Hrun & ->).
    rewrite Hrun. cbn [trace fst]. rewrite !reaches_embedding_app.
    unfold reaches_embedding at 1 3. cbn. split; [|tauto].
    intros [[x [H|[H|[H|[]]]]]|[H|[x [H|[]]]]]; try discriminate H. exact H.
Qed.

Lemma embedStamp_not_png pf stampImage binaryString :
  startsWith stampImage "data:" = true ->
  atob (base64Of stampImage) = Some binaryString ->
  includes stampImage "image/png" = false ->
  embedStamp pf stampImage = ([Atob (base64Of stampImage)], inl NotPng).
Proof.
  intros H1 H2 H3. unfold embedStamp, dataURLToBytes.
  rewrite H1, H2. cbn. rewrite H3. reflexivity.
Qed.

Lemma not_png_not_embeddable pf stampImage :
  includes stampImage "image/png" = false -> embeddable pf stampImage = None.
Proof.
  intros H. unfold embeddable. rewrite H.
  destruct (startsWith stampImage "data:"); [|reflexivity].
  destruct (stampBytes stampImage); reflexivity.
Qed.

(** ** C9: which stamp strings get to the PNG embedding *)

(** C9, as stated, fails: a string that starts with [data:] and contains
    [image/png], but whose payload is no base64, never gets to the
    embedding: [window.atob] throws between the two checks. *)
Lemma format_gate_counterexample :
  startsWith Examples.undecodable "data:" = true /\
  includes Examples.undecodable "image/png" = true /\
  addStampToPDF Examples.sturdy Examples.onePage Examples.undecodable None 1
  = ([Enter_addStampToPDF Examples.undecodable None 1; ArrayBuffer; PDFDocumentLoad;
      Atob "@@@@"; ConsoleError InvalidCharacterError],
     inl StampApplyFailed) /\
  ~ reaches_embedding
      (trace (addStampToPDF Examples.sturdy Examples.onePage
                            Examples.undecodable None 1)) /\
  ~ reaches_embedding
      (trace (addStampToAllPDFPages Examples.sturdy Examples.onePage
                                    Examples.undecodable None)).
Proof.
  repeat split; try (vm_compute; reflexivity).
  - intros [d H]. vm_compute in H.
    repeat (destruct H as [H|H]; [discriminate H|]). contradiction.
  - intros [d H]. vm_compute in H.
    repeat (destruct H as [H|H]; [discriminate H|]). contradiction.
Qed.

(** C9, amended: on a document that parses, [addStampToPDF] and
    [addStampToAllPDFPages] get to the PNG embedding exactly when the
    string starts with [data:], the text between its first and second
    comma is base64 that [window.atob] decodes, and the string contains
    [image/png] anywhere. A data URL that declares [image/jpeg] and has
    [image/png] in its payload gets there. A string without [image/png] is
    rejected: the caller gets the general stamping error, and the logged
    cause is the PNG format error when the prefix and the payload are in
    order. *)
Theorem format_gate pf file pages stampImage position pageNumber :
  bytes file = PdfBytes pages ->
  let single := addStampToPDF pf file stampImage position pageNumber in
  let all := addStampToAllPDFPages pf file stampImage position in
  let gate := startsWith stampImage "data:" = true /\
              atob (base64Of stampImage) <> None /\
              includes stampImage "image/png" = true in
  (reaches_embedding (trace single) <-> gate) /\
  (reaches_embedding (trace all) <-> gate) /\
  (startsWith Examples.mislabelled "data:image/jpeg" = true /\
   reaches_embedding
     (trace (addStampToPDF pf file Examples.mislabelled position pageNumber)) /\
   reaches_embedding
     (trace (addStampToAllPDFPages pf file Examples.mislabelled position))) /\
  (includes stampImage "image/png" = false ->
     result single = inl StampApplyFailed /\
     result all = inl StampApplyFailed /\
     (startsWith stampImage "data:" = true ->
      atob (base64Of stampImage) <> None ->
      In (ConsoleError NotPng) (trace single) /\
      In (ConsoleError NotPng) (trace all))).
Proof.
  intros Hb single all gate. unfold single, all.
  split; [|split; [|split]].
  - rewrite (addStampToPDF_reaches _ _ _ _ _ _ Hb). apply embedStamp_reaches.
  - rewrite (addStampToAllPDFPages_reaches _ _ _ _ _ Hb).
    apply embedStamp_reaches.
  - split; [reflexivity|].
    rewrite (addStampToPDF_reaches _ _ _ _ _ _ Hb).
    rewrite (addStampToAllPDFPages_reaches _ _ _ _ _ Hb).
    rewrite embedStamp_reaches.
    assert (G : startsWith Examples.mislabelled "data:" = true /\
                atob (base64Of Examples.mislabelled) <> None /\
                includes Examples.mislabelled "image/png" = true)
      by (repeat split; vm_compute; congruence).
    tauto.
  - intros Hi. pose proof (not_png_not_embeddable pf _ Hi) as He.
    destruct (addStampToPDF_stamp_fails _ _ _ _ position pageNumber Hb He)
      as (t & e & Hrun & ->).
    destruct (addStampToAllPDFPages_stamp_fails _ _ _ _ position Hb He)
      as (t' & e' & Hrun' & ->).
    cbn [result trace fst snd]. repeat split.
    + destruct (atob (base64Of stampImage)) as [bin|] eqn:Ha; [|congruence].
      rewrite (embedStamp_not_png pf _ _ H Ha Hi) in Hrun.
      injection Hrun as <- <-. cbn. tauto.
    + destruct (atob (base64Of stampImage)) as [bin|] eqn:Ha; [|congruence].
      rewrite (embedStamp_not_png pf _ _ H Ha Hi) in Hrun'.
      injection Hrun' as <- <-. cbn. tauto.
Qed.

Lemma format_gate_witness :
  reaches_embedding
    (trace (addStampToPDF Examples.sturdy Examples.onePage Examples.mislabelled
                          None 1)).
Proof.
  exact (proj1 (proj2 (proj1 (proj2 (proj2
    (format_gate Examples.sturdy Examples.onePage [Examples.surfacePage]
                 Examples.pngStamp None 1 eq_refl)))))).
Defined.

(** ** Signs of products and quotients *)






(** ** Calls of the compositor *)

Lemma pdfPageToImage_no_enter pf file pageNumber :
  filter is_enter (trace (pdfPageToImage pf file pageNumber)) = [] /\
  filter is_draw (trace (pdfPageToImage pf file pageNumber)) = [].
Proof.
  destruct (bytes file) as [|pages] eqn:Hb.
  - rewrite (pdfPageToImage_not_a_pdf _ _ _ Hb). split; reflexivity.
  - destruct (in_range_dec pageNumber pages) as [Hr|Hr].
    + destruct (in_range_page _ _ Hr) as [page Hp].
      destruct (rasterize pf page) as [dataUrl|] eqn:Hd.
      * rewrite (pdfPageToImage_rendered _ _ _ _ _ _ Hb Hr Hp Hd).
        split; reflexivity.
      * rewrite (pdfPageToImage_render_fails _ _ _ _ _ Hb Hr Hp Hd).
        split; reflexivity.
    + rewrite (pdfPageToImage_out_of_range _ _ _ _ Hb Hr). split; reflexivity.
Qed.

Lemma addStampToPDF_not_a_pdf pf file stampImage position pageNumber :
  bytes file = NotAPdf ->
  addStampToPDF pf file stampImage position pageNumber
  = ([Enter_addStampToPDF stampImage position pageNumber; ArrayBuffer;
      PDFDocumentLoad; ConsoleError PdfParseError],
     inl StampApplyFailed).
Proof.
  intros Hb. unfold addStampToPDF, arrayBuffer, PDFDocument_load.
  rewrite Hb. reflexivity.
Qed.

(** A run of [addStampToPDF] enters once, and draws at most once: on the
    requested page, at the rectangle [stampRect] gives for that page. *)
Lemma addStampToPDF_calls pf file stampImage position pageNumber :
  filter is_enter (trace (addStampToPDF pf file stampImage position pageNumber))
  = [Enter_addStampToPDF stampImage position pageNumber] /\
  (forall i at_,
     In (DrawImage i at_)
        (filter is_draw
           (trace (addStampToPDF pf file stampImage position pageNumber))) ->
     exists pages page,
       bytes file = PdfBytes pages /\ nth_error pages i = Some page /\
       at_ = stampRect position (page_width page) (page_height page)).
Proof.
  destruct (bytes file) as [|pages] eqn:Hb.
  - rewrite (addStampToPDF_not_a_pdf _ _ _ _ _ Hb).
    split; [reflexivity|]. intros i at_ [].
  - destruct (embeddable pf stampImage) as [d|] eqn:He.
    + destruct (in_range_dec pageNumber pages) as [Hr|Hr].
      * destruct (in_range_page _ _ Hr) as [page Hp].
        rewrite (addStampToPDF_ok _ _ _ _ _ position _ _ Hb He Hr Hp).
        split; [reflexivity|]. intros i at_ [H|[]].
        injection H as <- <-. eauto.
      * rewrite (addStampToPDF_out_of_range _ _ _ _ _ position _ Hb He Hr).
        split; [reflexivity|]. intros i at_ [].
    + destruct (addStampToPDF_stamp_fails _ _ _ _ position pageNumber Hb He)
        as (t & e & Hrun & ->).
      destruct (embedStamp_fails _ _ He) as (t' & e' & Hrun' & _ & Ht').
      rewrite Hrun in Hrun'. injection Hrun' as <- <-.
      destruct Ht' as [->|[->|[d ->]]];
        (split; [reflexivity|]; intros i at_ []).
Qed.

(** What [getPageImageByFile] adds around the compositor's run neither
    enters the compositor nor draws. *)
Lemma getPageImageByFile_calls pf store file pageNumber pageStamp stamp :
  find (fun stamp => (Pdf.pageNumber stamp =? pageNumber)%Z) (pageStamps store)
  = Some pageStamp ->
  find (fun s => String.eqb (id s) (stampId pageStamp)) (stamps store)
  = Some stamp ->
  let composite :=
    addStampToPDF pf file (src stamp) (Some (clamped (position pageStamp)))
                  pageNumber in
  forall keep,
    (keep = is_enter \/ keep = is_draw) ->
    filter keep (trace (getPageImageByFile pf store file pageNumber))
    = filter keep (trace composite).
Proof.
  intros Hfind Hstamp composite keep Hkeep.
  assert (Hp : forall f n, filter keep (trace (pdfPageToImage pf f n)) = []).
  { intros f n. destruct (pdfPageToImage_no_enter pf f n).
    destruct Hkeep as [->| ->]; assumption. }
  assert (Hc : forall e, keep (ConsoleError e) = false)
    by (intros e; destruct Hkeep as [->| ->]; reflexivity).
  unfold getPageImageByFile. rewrite Hfind, Hstamp.
  rewrite trace_try_catch, filter_app.
  rewrite trace_bind, filter_app. cbn [trace fst ret result snd app filter].
  rewrite trace_bind, filter_app. fold (clamped (position pageStamp)).
  fold composite.
  destruct (result composite) as [e|modified] eqn:Hr.
  - rewrite (result_bind_inr _ _ stamp) by reflexivity.
    rewrite (result_bind_inl _ _ e) by exact Hr.
    rewrite trace_bind, filter_app. cbn [trace fst emit result snd filter app].
    rewrite Hc. rewrite trace_bind, filter_app, Hp.
    destruct (result (pdfPageToImage pf file pageNumber)); cbn;
      rewrite !app_nil_r; reflexivity.
  - rewrite (result_bind_inr _ _ stamp) by reflexivity.
    rewrite (result_bind_inr _ _ modified) by exact Hr.
    rewrite trace_bind, filter_app, Hp.
    destruct (pdfPageToImage_returns pf (mkFile (name file) modified) pageNumber)
      as (r & Hret & _).
    rewrite Hret. cbn [trace fst ret filter app].
    rewrite (result_bind_inr _ _ r) by exact Hret. cbn.
    rewrite !app_nil_r. reflexivity.
Qed.

(** ** C10: where the placement is clamped *)



(** ** C7: a single placed stamp object *)

Section OneRender.

Import StampAdder.

(** C7, at the failing input: on an empty canvas with a selected stamp,
    the [addStampToCanvas] of one render is called twice, and both images
    load. Both calls resolve [true]. The second call tests the
    [stampObject] its closure holds, which is still [null], so it removes
    nothing and clears nothing: the object the first call placed stays on
    the canvas next to the new one, and the store refers to the new one
    only. The same canvas results when the second call is made before the
    image of the first has loaded, through the hook the store then gives. *)
Lemma one_render_places_twice :
  let hook := Examples.firstRender in
  let w0 := Examples.emptySurface in
  let first := addStampToCanvas hook w0 (Loaded 200 50) in
  let w1 := run w0 (fst first) in
  let second := addStampToCanvas hook w1 (Loaded 80 80) in
  let w2 := run w1 (fst second) in
  let img1 := newStampImage (canvas w0) 0 200 50 in
  let img2 := newStampImage (canvas w0) 1 80 80 in
  snd first = true /\ snd second = true /\
  objects (canvas w1) = [img1] /\
  stampObject (store w1) = Some img1 /\
  fst second
  = [NewFabricImage img2; Add img2; SetActiveObject img2;
     SetStampObject (Some img2); RequestRenderAll; ToastSuccess StampAdded] /\
  objects (canvas w2) = [img1; img2] /\
  same_object img1 img2 = false /\
  stampObject (store w2) = Some img2 /\
  (let s1 := happen (mkSurface w0 []) (Call hook (Loaded 200 50)) in
   let current := useStampAdder (store (world s1)) in
   loading s1 = [Loaded 200 50] /\
   happen_all s1 [Call current (Loaded 80 80); Settle 0; Settle 0]
   = mkSurface w2 []).
Proof. cbv zeta. repeat split; vm_compute; reflexivity. Qed.

End OneRender.

(** ** C8: the cap on the stamp library *)

Section LibraryCap.

Import StampUploader.

Variable addStamp : Stamp -> list Stamp -> list Stamp.

Lemma handleStampChange_full stamps e :
  (5 <= List.length stamps)%nat ->
  handleStampChange addStamp stamps e
  = (stamps, match selectedFile e with
             | Some _ => [ErrorLimit]
             | None => []
             end).
Proof.
  intros H. unfold handleStampChange.
  destruct (selectedFile e); [|reflexivity].
  apply Nat.leb_le in H. rewrite H. reflexivity.
Qed.

Hypothesis addStamp_adds_one :
  forall stamp stamps,
    (List.length (addStamp stamp stamps) <= S (List.length stamps))%nat.

Lemma handleStampChange_capped stamps e :
  (List.length stamps <= 5)%nat ->
  (List.length (fst (handleStampChange addStamp stamps e)) <= 5)%nat.
Proof.
  intros H. unfold handleStampChange.
  destruct (selectedFile e) as [fileName|]; [|exact H].
  destruct (5 <=? List.length stamps)%nat eqn:E; [exact H|].
  apply Nat.leb_gt in E.
  destruct (isValid e); [|exact H].
  destruct (readerResult e) as [r|]; [|exact H].
  destruct (String.eqb r ""); [exact H|].
  cbn [fst].
  pose proof (addStamp_adds_one (mkStamp (uuid e) r fileName) stamps). lia.
Qed.

Lemma uploads_capped es : forall stamps,
  (List.length stamps <= 5)%nat ->
  (List.length (uploads addStamp stamps es) <= 5)%nat.
Proof.
  induction es as [|e es IH]; intros stamps H; cbn; [assumption|].
  apply IH. apply handleStampChange_capped. assumption.
Qed.

End LibraryCap.

(** C8: whatever the library holds, a change event that arrives when five
    or more stamps exist is answered with the limit message and leaves the
    library as it is; so, with an [addStamp] that adds one stamp, a library
    of at most five stamps has at most five after any series of uploads. *)
Theorem stamp_library_capped
    (addStamp : Stamp -> list Stamp -> list Stamp) :
  (forall stamp stamps,
     (List.length (addStamp stamp stamps) <= S (List.length stamps))%nat) ->
  (forall stamps e fileName,
     (5 <= List.length stamps)%nat ->
     StampUploader.selectedFile e = Some fileName ->
     StampUploader.handleStampChange addStamp stamps e
     = (stamps, [StampUploader.ErrorLimit])) /\
  (forall stamps e,
     (List.length stamps <= 5)%nat ->
     (List.length (fst (StampUploader.handleStampChange addStamp stamps e)) <= 5)%nat) /\
  (forall stamps es,
     (List.length stamps <= 5)%nat ->
     (List.length (StampUploader.uploads addStamp stamps es) <= 5)%nat).
Proof.
  intros Hadd. split; [|split].
  - intros stamps e fileName H Hf.
    rewrite (handleStampChange_full addStamp stamps e H), Hf. reflexivity.
  - intros stamps e. apply handleStampChange_capped. exact Hadd.
  - intros stamps es. apply uploads_capped. exact Hadd.
Qed.

Lemma stamp_library_capped_witness :
  StampUploader.handleStampChange Examples.appendStamp Examples.fiveStamps
                                  Examples.sixthUpload
  = (Examples.fiveStamps, [StampUploader.ErrorLimit]).
Proof.
  refine (proj1 (stamp_library_capped Examples.appendStamp _)
                Examples.fiveStamps Examples.sixthUpload "f.png" _ eq_refl).
  - intros stamp stamps. unfold Examples.appendStamp.
    rewrite length_app. cbn. lia.
  - cbn. lia.
Defined.

(* ================================================================== *)
(** * Further properties *)

Import More.

(** ** The rasterizer *)

(** X1: [pdfPageToImage] never throws. Its result names the file and the
    page asked for; its [error] is unset exactly when the file parses, the
    page number is in range and the renderer renders the page, and the
    image is then the renderer's; in every other case the error names the
    page and the image is empty. *)
Theorem pdfPageToImage_outcome pf file pageNumber :
  exists r,
    result (pdfPageToImage pf file pageNumber) = inr r /\
    fileName r = name file /\
    image_pageNumber r = pageNumber /\
    (error r = None <->
     exists pages page dataUrl,
       bytes file = PdfBytes pages /\ in_range pageNumber pages /\
       nth_error pages (Z.to_nat (pageNumber - 1)) = Some page /\
       rasterize pf page = Some dataUrl /\ image r = dataUrl) /\
    (error r <> None ->
     error r = Some (PageProcessingFailed pageNumber) /\ image r = "").
Proof.
  destruct (bytes file) as [|pages] eqn:Hb.
  - rewrite (pdfPageToImage_not_a_pdf _ _ _ Hb). eexists.
    split; [reflexivity|]. cbn. repeat split; try discriminate.
    intros (pages & page & d & H & _). discriminate H.
  - destruct (in_range_dec pageNumber pages) as [Hr|Hr].
    + destruct (in_range_page _ _ Hr) as [page Hp].
      destruct (rasterize pf page) as [dataUrl|] eqn:Hd.
      * rewrite (pdfPageToImage_rendered _ _ _ _ _ _ Hb Hr Hp Hd). eexists.
        split; [reflexivity|]. cbn. repeat split; try congruence.
        intros _. exists pages, page, dataUrl. auto.
      * rewrite (pdfPageToImage_render_fails _ _ _ _ _ Hb Hr Hp Hd). eexists.
        split; [reflexivity|]. cbn. repeat split; try discriminate.
        intros (pages' & page' & d & H1 & _ & H3 & H4 & _).
        injection H1 as <-. congruence.
    + rewrite (pdfPageToImage_out_of_range _ _ _ _ Hb Hr). eexists.
      split; [reflexivity|]. cbn. repeat split; try discriminate.
      intros (pages' & page' & d & H1 & H2 & _).
      injection H1 as <-. contradiction.
Qed.

Lemma getPdfPageCount_run file :
  getPdfPageCount file
  = match bytes file with
    | NotAPdf =>
        ([CreateObjectURL (name file); GetDocument;
          ConsoleError PdfParseError; RevokeObjectURL],
         inl PageCountFailed)
    | PdfBytes pages =>
        ([CreateObjectURL (name file); GetDocument; RevokeObjectURL],
         inr (numPages pages))
    end.
Proof.
  unfold getPdfPageCount, getDocument. destruct (bytes file); reflexivity.
Qed.

(** X2: [pdfPageToImage] and [getPdfPageCount] create one object URL, as
    their first call, and release it as their last call on every path, the
    failing ones included; nothing in between creates or releases one. *)
Theorem object_url_released pf file pageNumber :
  (exists middle,
     trace (pdfPageToImage pf file pageNumber)
     = CreateObjectURL (name file) :: middle ++ [RevokeObjectURL] /\
     ~ In RevokeObjectURL middle /\
     forall n, ~ In (CreateObjectURL n) middle) /\
  (exists middle,
     trace (getPdfPageCount file)
     = CreateObjectURL (name file) :: middle ++ [RevokeObjectURL] /\
     ~ In RevokeObjectURL middle /\
     forall n, ~ In (CreateObjectURL n) middle).
Proof.
  assert (Hno : forall l : list Event,
            Forall (fun ev => match ev with
                              | RevokeObjectURL | CreateObjectURL _ => False
                              | _ => True
                              end) l ->
            ~ In RevokeObjectURL l /\ forall n, ~ In (CreateObjectURL n) l).
  { intros l Hl. rewrite Forall_forall in Hl. split.
    - intros H. exact (Hl _ H).
    - intros n H. exact (Hl _ H). }
  split.
  - destruct (bytes file) as [|pages] eqn:Hb.
    + rewrite (pdfPageToImage_not_a_pdf _ _ _ Hb).
      exists [GetDocument; ConsoleError PdfParseError].
      split; [reflexivity|]. apply Hno. repeat constructor.
    + destruct (in_range_dec pageNumber pages) as [Hr|Hr].
      * destruct (in_range_page _ _ Hr) as [page Hp].
        destruct (rasterize pf page) as [dataUrl|] eqn:Hd.
        -- rewrite (pdfPageToImage_rendered _ _ _ _ _ _ Hb Hr Hp Hd).
           exists [GetDocument; RenderPage pageNumber].
           split; [reflexivity|]. apply Hno. repeat constructor.
        -- rewrite (pdfPageToImage_render_fails _ _ _ _ _ Hb Hr Hp Hd).
           exists [GetDocument; RenderPage pageNumber; ConsoleError RenderError].
           split; [reflexivity|]. apply Hno. repeat constructor.
      * rewrite (pdfPageToImage_out_of_range _ _ _ _ Hb Hr).
        exists [GetDocument; ConsoleError (InvalidPageNumber (numPages pages))].
        split; [reflexivity|]. apply Hno. repeat constructor.
  - rewrite getPdfPageCount_run. destruct (bytes file) as [|pages].
    + exists [GetDocument; ConsoleError PdfParseError].
      split; [reflexivity|]. apply Hno. repeat constructor.
    + exists [GetDocument]. split; [reflexivity|]. apply Hno. repeat constructor.
Qed.

(** X3: [pdfPageToImage] hands a page to the renderer exactly when the
    file parses and the page number is in range, and then it is the page
    asked for: an invalid page number is rejected before anything is
    rendered. *)
Theorem renderer_called_in_range pf file pageNumber n :
  In (RenderPage n) (trace (pdfPageToImage pf file pageNumber)) <->
  n = pageNumber /\
  exists pages, bytes file = PdfBytes pages /\ in_range pageNumber pages.
Proof.
  destruct (bytes file) as [|pages] eqn:Hb.
  - rewrite (pdfPageToImage_not_a_pdf _ _ _ Hb). cbn. split.
    + intros H. repeat (destruct H as [H|H]; [discriminate H|]). contradiction.
    + intros (_ & pages & H & _). discriminate H.
  - destruct (in_range_dec pageNumber pages) as [Hr|Hr].
    + destruct (in_range_page _ _ Hr) as [page Hp].
      destruct (rasterize pf page) as [dataUrl|] eqn:Hd.
      * rewrite (pdfPageToImage_rendered _ _ _ _ _ _ Hb Hr Hp Hd). cbn. split.
        -- intros [H|[H|[H|[H|[]]]]]; try discriminate H.
           injection H as <-. eauto.
        -- intros [-> _]. tauto.
      * rewrite (pdfPageToImage_render_fails _ _ _ _ _ Hb Hr Hp Hd). cbn. split.
        -- intros [H|[H|[H|[H|[H|[]]]]]]; try discriminate H.
           injection H as <-. eauto.
        -- intros [-> _]. tauto.
    + rewrite (pdfPageToImage_out_of_range _ _ _ _ Hb Hr). cbn. split.
      * intros H. repeat (destruct H as [H|H]; [discriminate H|]). contradiction.
      * intros (_ & pages' & H & Hr'). injection H as <-. contradiction.
Qed.

(** X4: [getPdfPageCount] returns the number of pages of a file that
    pdf.js opens, and for any other file it logs the cause and throws its
    own error; the page numbers [pdfPageToImage] hands to the renderer are
    exactly those from 1 to the count [getPdfPageCount] returns. *)
Theorem page_count_bounds pf file pageNumber P :
  result (getPdfPageCount file) = inr P ->
  (exists pages, bytes file = PdfBytes pages /\ P = Z.of_nat (List.length pages)) /\
  (In (RenderPage pageNumber) (trace (pdfPageToImage pf file pageNumber))
   <-> (1 <= pageNumber <= P)%Z) /\
  (forall other, bytes other = NotAPdf ->
     getPdfPageCount other
     = ([CreateObjectURL (name other); GetDocument;
         ConsoleError PdfParseError; RevokeObjectURL],
        inl PageCountFailed)).
Proof.
  intros Hc. rewrite getPdfPageCount_run in Hc.
  destruct (bytes file) as [|pages] eqn:Hb; [discriminate|].
  injection Hc as <-. split; [eauto|]. split.
  - rewrite renderer_called_in_range. unfold in_range. split.
    + intros (_ & pages' & H & Hr). rewrite Hb in H. injection H as <-.
      exact Hr.
    + intros Hr. split; [reflexivity|]. eauto.
  - intros other Ho. rewrite getPdfPageCount_run, Ho. reflexivity.
Qed.

Lemma page_count_bounds_witness :
  In (RenderPage 3)
     (trace (pdfPageToImage Examples.sturdy Examples.threePages 3))
  <-> (1 <= 3 <= 3)%Z.
Proof.
  exact (proj1 (proj2
    (page_count_bounds Examples.sturdy Examples.threePages 3 3 eq_refl))).
Defined.

(** ** The compositors *)

Lemma length_replace_nth {A} (a : A) l : forall n,
  List.length (replace_nth n a l) = List.length l.
Proof.
  induction l as [|b l IH]; intros [|n]; cbn; try reflexivity.
  rewrite IH. reflexivity.
Qed.

Lemma nth_error_replace_nth_same {A} (a : A) l : forall n,
  (n < List.length l)%nat -> nth_error (replace_nth n a l) n = Some a.
Proof.
  induction l as [|b l IH]; intros [|n] H; cbn in *; try lia; [reflexivity|].
  apply IH. lia.
Qed.

Lemma nth_error_replace_nth_other {A} (a : A) l : forall n i,
  i <> n -> nth_error (replace_nth n a l) i = nth_error l i.
Proof.
  induction l as [|b l IH]; intros [|n] [|i] H; cbn; try reflexivity;
    try congruence.
  apply IH. congruence.
Qed.

Lemma try_catch_rethrows {A} (m : M A) (cause : Error -> Event) (e : Error) :
  let run := try_catch m (fun error => emit (cause error) ;; throw e) in
  result run = inl e \/ exists a, result run = inr a.
Proof. destruct m as [t [e'|a]]; cbn; eauto. Qed.

Lemma compositing_results pf file stampImage position pageNumber :
  (result (addStampToPDF pf file stampImage position pageNumber)
   = inl StampApplyFailed \/
   exists modified,
     result (addStampToPDF pf file stampImage position pageNumber)
     = inr modified) /\
  (result (addStampToAllPDFPages pf file stampImage position)
   = inl StampApplyFailed \/
   exists modified,
     result (addStampToAllPDFPages pf file stampImage position)
     = inr modified).
Proof.
  split.
  - unfold addStampToPDF.
    rewrite (result_bind_inr _ _ tt) by reflexivity.
    apply try_catch_rethrows.
  - unfold addStampToAllPDFPages. apply try_catch_rethrows.
Qed.

(** X5: [addStampToPDF] returns a document only if the file parses, the
    stamp embeds and the page number is in range, and
    [addStampToAllPDFPages] only if the file parses and the stamp embeds:
    when one of these fails, the call throws. *)
Theorem compositors_succeed_only_if pf file stampImage position pageNumber :
  let single := addStampToPDF pf file stampImage position pageNumber in
  let all := addStampToAllPDFPages pf file stampImage position in
  let parses := exists pages, bytes file = PdfBytes pages in
  let embeds := exists imageData, embeddable pf stampImage = Some imageData in
  let page_exists :=
    exists pages, bytes file = PdfBytes pages /\ in_range pageNumber pages in
  (forall modified, result single = inr modified ->
     parses /\ embeds /\ page_exists) /\
  (forall modified, result all = inr modified -> parses /\ embeds) /\
  (~ (parses /\ embeds /\ page_exists) ->
   result single = inl StampApplyFailed) /\
  (~ (parses /\ embeds) -> result all = inl StampApplyFailed).
Proof.
  intros single all parses embeds page_exists.
  assert (H1 : forall modified, result single = inr modified ->
                 parses /\ embeds /\ page_exists).
  { intros modified H. apply addStampToPDF_inv in H.
    destruct H as (pages & page & d & Hb & He & Hr & _).
    split; [exists pages; exact Hb|].
    split; [exists d; exact He|exists pages; split; assumption]. }
  assert (H2 : forall modified, result all = inr modified ->
                 parses /\ embeds).
  { intros modified H. apply addStampToAllPDFPages_inv in H.
    destruct H as (pages & d & Hb & He & _).
    split; [exists pages; exact Hb|exists d; exact He]. }
  split; [exact H1|]. split; [exact H2|].
  destruct (compositing_results pf file stampImage position pageNumber)
    as [Hs Ha].
  split.
  - intros Hn. destruct Hs as [Hs|[modified Hs]]; [exact Hs|].
    exfalso. apply Hn. exact (H1 modified Hs).
  - intros Hn. destruct Ha as [Ha|[modified Ha]]; [exact Ha|].
    exfalso. apply Hn. exact (H2 modified Ha).
Qed.

(** X6: what [addStampToPDF] returns is the document it was given with
    one image added: it has the same number of pages, every page but the
    requested one is as it was, and the requested page keeps its size and
    its earlier images, in order, before the new one. *)
Theorem addStampToPDF_additive pf file stampImage position pageNumber modified :
  result (addStampToPDF pf file stampImage position pageNumber) = inr modified ->
  exists pages pages' page stamped,
    bytes file = PdfBytes pages /\ modified = PdfBytes pages' /\
    List.length pages' = List.length pages /\
    (forall i, i <> Z.to_nat (pageNumber - 1) ->
               nth_error pages' i = nth_error pages i) /\
    nth_error pages (Z.to_nat (pageNumber - 1)) = Some page /\
    nth_error pages' (Z.to_nat (pageNumber - 1)) = Some stamped /\
    page_width stamped = page_width page /\
    page_height stamped = page_height page /\
    exists drawn, page_images stamped = page_images page ++ [drawn].
Proof.
  intros H. apply addStampToPDF_inv in H.
  destruct H as (pages & page & d & Hb & He & Hr & Hp & ->).
  eexists pages, _, page, _. split; [exact Hb|]. split; [reflexivity|].
  split; [apply length_replace_nth|].
  split; [intros i Hi; apply nth_error_replace_nth_other; exact Hi|].
  split; [exact Hp|]. split.
  - apply nth_error_replace_nth_same. apply nth_error_Some. congruence.
  - cbn. eauto.
Qed.

Lemma addStampToPDF_additive_witness :
  exists pages pages' page stamped,
    bytes Examples.threePages = PdfBytes pages /\
    PdfBytes
      [Examples.surfacePage;
       stampedPage [Byte.x89; Byte.x50; Byte.x4e; Byte.x47;
                    Byte.x0d; Byte.x0a; Byte.x1a; Byte.x0a]
                   None Examples.letterPage;
       Examples.a3Page]
    = PdfBytes pages' /\
    List.length pages' = List.length pages /\
    (forall i, i <> Z.to_nat (2 - 1) ->
               nth_error pages' i = nth_error pages i) /\
    nth_error pages (Z.to_nat (2 - 1)) = Some page /\
    nth_error pages' (Z.to_nat (2 - 1)) = Some stamped /\
    page_width stamped = page_width page /\
    page_height stamped = page_height page /\
    exists drawn, page_images stamped = page_images page ++ [drawn].
Proof.
  exact (addStampToPDF_additive Examples.sturdy Examples.threePages
           Examples.pngStamp None 2 _ eq_refl).
Defined.

(** X7: what [addStampToAllPDFPages] returns has the pages of the document
    it was given, in the same order and of the same sizes, each with its
    earlier images kept and one image added, and the image added is the
    same on every page. *)
Theorem addStampToAllPDFPages_additive pf file stampImage position modified :
  result (addStampToAllPDFPages pf file stampImage position) = inr modified ->
  exists pages pages' imageData,
    bytes file = PdfBytes pages /\ modified = PdfBytes pages' /\
    List.length pages' = List.length pages /\
    forall i page,
      nth_error pages i = Some page ->
      exists stamped at_,
        nth_error pages' i = Some stamped /\
        page_width stamped = page_width page /\
        page_height stamped = page_height page /\
        page_images stamped = page_images page ++ [mkDrawn imageData at_].
Proof.
  intros H. apply addStampToAllPDFPages_inv in H.
  destruct H as (pages & d & Hb & He & ->).
  eexists pages, _, d. split; [exact Hb|]. split; [reflexivity|].
  split; [apply length_map|].
  intros i page Hi. rewrite (nth_error_map_stamped _ _ _ _ _ Hi).
  eexists _, _. split; [reflexivity|]. cbn. auto.
Qed.

Lemma addStampToAllPDFPages_additive_witness :
  exists pages pages' imageData,
    bytes Examples.threePages = PdfBytes pages /\
    PdfBytes
      (List.map (stampedPage [Byte.x89; Byte.x50; Byte.x4e; Byte.x47;
                              Byte.x0d; Byte.x0a; Byte.x1a; Byte.x0a]
                             (Some Examples.overCorner))
                [Examples.surfacePage; Examples.letterPage; Examples.a3Page])
    = PdfBytes pages' /\
    List.length pages' = List.length pages /\
    forall i page,
      nth_error pages i = Some page ->
      exists stamped at_,
        nth_error pages' i = Some stamped /\
        page_width stamped = page_width page /\
        page_height stamped = page_height page /\
        page_images stamped = page_images page ++ [mkDrawn imageData at_].
Proof.
  exact (addStampToAllPDFPages_additive Examples.sturdy Examples.threePages
           Examples.pngStamp (Some Examples.overCorner) _ eq_refl).
Defined.

Lemma embedStamp_run pf stampImage :
  embedStamp pf stampImage
  = if startsWith stampImage "data:" then
      match stampBytes stampImage with
      | None => ([Atob (base64Of stampImage)], inl InvalidCharacterError)
      | Some imageData =>
          if includes stampImage "image/png" then
            ([Atob (base64Of stampImage); EmbedPng imageData],
             if png_decodes pf imageData then inr imageData
             else inl PngDecodeError)
          else ([Atob (base64Of stampImage)], inl NotPng)
      end
    else ([], inl NotDataURL).
Proof.
  unfold embedStamp, dataURLToBytes, stampBytes, embedPng.
  destruct (startsWith stampImage "data:"); [|reflexivity].
  destruct (atob (base64Of stampImage)) as [bin|]; [|reflexivity].
  cbn. destruct (includes stampImage "image/png"); [|reflexivity].
  cbn. destruct (png_decodes pf _); reflexivity.
Qed.

Lemma logged_app t1 t2 : logged (t1 ++ t2) = logged t1 ++ logged t2.
Proof.
  induction t1 as [|ev t1 IH]; [reflexivity|].
  destruct ev; cbn; rewrite IH; reflexivity.
Qed.

Lemma logged_draws position pages : forall i,
  logged (drawEventsFrom position i pages) = [].
Proof. induction pages as [|p rest IH]; intros i; cbn; auto. Qed.

Lemma embedStamp_quiet pf stampImage :
  logged (trace (embedStamp pf stampImage)) = [].
Proof.
  rewrite embedStamp_run.
  destruct (startsWith stampImage "data:"); [|reflexivity].
  destruct (stampBytes stampImage) as [d|]; [|reflexivity].
  destruct (includes stampImage "image/png"); [|reflexivity].
  destruct (png_decodes pf d); reflexivity.
Qed.

(** The runs of the two compositors on a document that parses, by the
    outcome of [embedStamp]. *)
Lemma addStampToPDF_stamp_error
    pf file pages stampImage position pageNumber t e :
  bytes file = PdfBytes pages ->
  embedStamp pf stampImage = (t, inl e) ->
  addStampToPDF pf file stampImage position pageNumber
  = ([Enter_addStampToPDF stampImage position pageNumber; ArrayBuffer;
      PDFDocumentLoad] ++ t ++ [ConsoleError e],
     inl StampApplyFailed).
Proof.
  intros Hb He. unfold addStampToPDF, arrayBuffer, PDFDocument_load.
  rewrite Hb. cbn. rewrite He. reflexivity.
Qed.

Lemma addStampToAllPDFPages_stamp_error pf file pages stampImage position t e :
  bytes file = PdfBytes pages ->
  embedStamp pf stampImage = (t, inl e) ->
  addStampToAllPDFPages pf file stampImage position
  = ([ArrayBuffer; PDFDocumentLoad; GetPages] ++ t ++ [ConsoleError e],
     inl StampApplyFailed).
Proof.
  intros Hb He. unfold addStampToAllPDFPages, arrayBuffer, PDFDocument_load.
  rewrite Hb. cbn. rewrite He. reflexivity.
Qed.

Lemma addStampToAllPDFPages_not_a_pdf pf file stampImage position :
  bytes file = NotAPdf ->
  addStampToAllPDFPages pf file stampImage position
  = ([ArrayBuffer; PDFDocumentLoad; ConsoleError PdfParseError],
     inl StampApplyFailed).
Proof.
  intros Hb. unfold addStampToAllPDFPages, arrayBuffer, PDFDocument_load.
  rewrite Hb. reflexivity.
Qed.

Lemma failed_run_atomic (pre : list Event) (cause : Error) :
  logged pre = [] ->
  let run : M Bytes := (pre ++ [ConsoleError cause], inl StampApplyFailed) in
  (forall e, result run = inl e ->
     e = StampApplyFailed /\ exists c, logged (trace run) = [c]) /\
  (forall modified, result run = inr modified ->
     logged (trace run) = [] /\ exists t, trace run = t ++ [Save]).
Proof.
  intros Hpre run. split; [|discriminate].
  intros e [= <-]. split; [reflexivity|].
  exists cause. unfold run. cbn [trace fst].
  rewrite logged_app, Hpre. reflexivity.
Qed.

(** X8: the two compositors either return a saved document or throw the
    one general stamping error. A run that throws has logged exactly one
    cause; a run that returns has logged nothing and [save] is its last
    call. *)
Theorem compositing_is_atomic pf file stampImage position pageNumber :
  let atomic (run : M Bytes) :=
    (forall e, result run = inl e ->
       e = StampApplyFailed /\
       exists cause, logged (trace run) = [cause]) /\
    (forall modified, result run = inr modified ->
       logged (trace run) = [] /\ exists t, trace run = t ++ [Save]) in
  atomic (addStampToPDF pf file stampImage position pageNumber) /\
  atomic (addStampToAllPDFPages pf file stampImage position).
Proof.
  intros atomic.
  set (single := addStampToPDF pf file stampImage position pageNumber).
  set (all := addStampToAllPDFPages pf file stampImage position).
  cut (forall run, run = single \/ run = all -> atomic run);
    [intros H; split; apply H; auto|].
  unfold atomic. intros run Hrun.
  destruct (bytes file) as [|pages] eqn:Hb.
  - destruct Hrun as [-> | ->]; unfold single, all.
    + rewrite (addStampToPDF_not_a_pdf _ _ _ _ _ Hb).
      exact (failed_run_atomic
                [Enter_addStampToPDF stampImage position pageNumber;
                 ArrayBuffer; PDFDocumentLoad] PdfParseError eq_refl).
    + rewrite (addStampToAllPDFPages_not_a_pdf _ _ _ _ Hb).
      exact (failed_run_atomic [ArrayBuffer; PDFDocumentLoad]
                                PdfParseError eq_refl).
  - pose proof (embedStamp_quiet pf stampImage) as Hq.
    destruct (embedStamp pf stampImage) as [t [e|d]] eqn:He;
      cbn [trace fst] in Hq.
    + destruct Hrun as [-> | ->]; unfold single, all.
      * rewrite (addStampToPDF_stamp_error _ _ _ _ _ _ _ _ Hb He).
        exact (failed_run_atomic
                  (Enter_addStampToPDF stampImage position pageNumber
                     :: ArrayBuffer :: PDFDocumentLoad :: t) e Hq).
      * rewrite (addStampToAllPDFPages_stamp_error _ _ _ _ _ _ _ Hb He).
        exact (failed_run_atomic
                  (ArrayBuffer :: PDFDocumentLoad :: GetPages :: t) e Hq).
    + assert (Hemb : embeddable pf stampImage = Some d)
        by (apply embedStamp_inv; rewrite He; reflexivity).
      destruct Hrun as [-> | ->]; unfold single, all.
      * destruct (in_range_dec pageNumber pages) as [Hr|Hr].
        -- destruct (in_range_page _ _ Hr) as [page Hp].
           rewrite (addStampToPDF_ok _ _ _ _ _ position _ _ Hb Hemb Hr Hp).
           split; [discriminate|]. intros modified _. split; [reflexivity|].
           eexists [_; _; _; _; _; _; _]. reflexivity.
        -- rewrite (addStampToPDF_out_of_range _ _ _ _ _ position _ Hb Hemb Hr).
           exact (failed_run_atomic
                     [Enter_addStampToPDF stampImage position pageNumber;
                      ArrayBuffer; PDFDocumentLoad; Atob (base64Of stampImage);
                      EmbedPng d; GetPages]
                     (InvalidPageNumber (numPages pages)) eq_refl).
      * rewrite (addStampToAllPDFPages_ok _ _ _ _ _ position Hb Hemb).
        split; [discriminate|]. intros modified _. cbn [trace fst]. split.
        -- rewrite !logged_app, logged_draws. reflexivity.
        -- eexists. rewrite app_assoc. reflexivity.
Qed.

(** X9: the cause a failing compositor logs is that of the first check
    that fails, in the order of the code: an unreadable document hides a
    bad stamp and a bad page number, and a bad stamp (no [data:] prefix,
    then an undecodable payload, then no [image/png], then data the PNG
    embedder rejects) hides a bad page number, whatever the page number
    is. *)
Theorem failure_cause_precedence pf file stampImage position pageNumber :
  let single :=
    logged (trace (addStampToPDF pf file stampImage position pageNumber)) in
  let all :=
    logged (trace (addStampToAllPDFPages pf file stampImage position)) in
  (bytes file = NotAPdf ->
     single = [PdfParseError] /\ all = [PdfParseError]) /\
  (forall pages, bytes file = PdfBytes pages ->
     (startsWith stampImage "data:" = false ->
        single = [NotDataURL] /\ all = [NotDataURL]) /\
     (startsWith stampImage "data:" = true ->
      stampBytes stampImage = None ->
        single = [InvalidCharacterError] /\ all = [InvalidCharacterError]) /\
     (forall imageData,
        startsWith stampImage "data:" = true ->
        stampBytes stampImage = Some imageData ->
        includes stampImage "image/png" = false ->
        single = [NotPng] /\ all = [NotPng]) /\
     (forall imageData,
        startsWith stampImage "data:" = true ->
        stampBytes stampImage = Some imageData ->
        includes stampImage "image/png" = true ->
        png_decodes pf imageData = false ->
        single = [PngDecodeError] /\ all = [PngDecodeError]) /\
     (forall imageData,
        embeddable pf stampImage = Some imageData ->
        all = [] /\
        (in_range pageNumber pages -> single = []) /\
        (~ in_range pageNumber pages ->
         single = [InvalidPageNumber (numPages pages)]))).
Proof.
  intros single all. unfold single, all. split.
  - intros Hb. rewrite (addStampToPDF_not_a_pdf _ _ _ _ _ Hb).
    rewrite (addStampToAllPDFPages_not_a_pdf _ _ _ _ Hb). split; reflexivity.
  - intros pages Hb.
    assert (Hstamp : forall t e,
              embedStamp pf stampImage = (t, inl e) -> logged t = [] ->
              logged (trace (addStampToPDF pf file stampImage position
                                           pageNumber)) = [e] /\
              logged (trace (addStampToAllPDFPages pf file stampImage
                                                   position)) = [e]).
    { intros t e He Ht.
      rewrite (addStampToPDF_stamp_error _ _ _ _ _ _ _ _ Hb He).
      rewrite (addStampToAllPDFPages_stamp_error _ _ _ _ _ _ _ Hb He).
      cbn [trace fst]. rewrite !logged_app, Ht. split; reflexivity. }
    split; [|split; [|split; [|split]]].
    + intros H1. apply (Hstamp []); [|reflexivity].
      rewrite embedStamp_run, H1. reflexivity.
    + intros H1 H2. apply (Hstamp [Atob (base64Of stampImage)]); [|reflexivity].
      rewrite embedStamp_run, H1, H2. reflexivity.
    + intros d H1 H2 H3.
      apply (Hstamp [Atob (base64Of stampImage)]); [|reflexivity].
      rewrite embedStamp_run, H1, H2, H3. reflexivity.
    + intros d H1 H2 H3 H4.
      apply (Hstamp [Atob (base64Of stampImage); EmbedPng d]); [|reflexivity].
      rewrite embedStamp_run, H1, H2, H3, H4. reflexivity.
    + intros d He. rewrite (addStampToAllPDFPages_ok _ _ _ _ _ position Hb He).
      cbn [trace fst]. rewrite !logged_app, logged_draws.
      split; [reflexivity|]. split.
      * intros Hr. destruct (in_range_page _ _ Hr) as [page Hp].
        rewrite (addStampToPDF_ok _ _ _ _ _ position _ _ Hb He Hr Hp).
        reflexivity.
      * intros Hr.
        rewrite (addStampToPDF_out_of_range _ _ _ _ _ position _ Hb He Hr).
        reflexivity.
Qed.

(** ** Decoding the stamp *)

Lemma split_comma_comma_free s :
  comma_free s = true -> split_comma s = [s].
Proof.
  induction s as [|c s IH]; cbn; [reflexivity|].
  destruct (Ascii.eqb c ","); cbn; [discriminate|].
  intros H. rewrite (IH H). reflexivity.
Qed.

Lemma split_comma_head head rest :
  comma_free head = true ->
  split_comma (head ++ String "," rest) = head :: split_comma rest.
Proof.
  induction head as [|c head IH]; cbn; [reflexivity|].
  destruct (Ascii.eqb c ","); cbn; [discriminate|].
  intros H. rewrite (IH H). reflexivity.
Qed.

(** X11: a stamp string without a comma is never embedded:
    [dataURLToBytes] finds no payload, hands the string ["undefined"] to
    [window.atob] and throws, so both compositors fail with the general
    stamping error before they get to the PNG embedding, whatever the
    document and the page number. *)
Theorem stamp_without_comma_rejected pf file stampImage position pageNumber :
  comma_free stampImage = true ->
  dataURLToBytes stampImage = ([Atob "undefined"], inl InvalidCharacterError) /\
  result (addStampToPDF pf file stampImage position pageNumber)
  = inl StampApplyFailed /\
  result (addStampToAllPDFPages pf file stampImage position)
  = inl StampApplyFailed /\
  ~ reaches_embedding
      (trace (addStampToPDF pf file stampImage position pageNumber)) /\
  ~ reaches_embedding
      (trace (addStampToAllPDFPages pf file stampImage position)).
Proof.
  intros Hc.
  assert (Hb64 : base64Of stampImage = "undefined")
    by (unfold base64Of; rewrite (split_comma_comma_free _ Hc); reflexivity).
  assert (Ha : atob (base64Of stampImage) = None)
    by (rewrite Hb64; vm_compute; reflexivity).
  assert (He : embeddable pf stampImage = None).
  { unfold embeddable, stampBytes. rewrite Ha.
    destruct (startsWith stampImage "data:"); reflexivity. }
  split.
  { unfold dataURLToBytes. rewrite Hb64. vm_compute. reflexivity. }
  destruct (bytes file) as [|pages] eqn:Hb.
  - rewrite (addStampToPDF_not_a_pdf _ _ _ _ _ Hb).
    rewrite (addStampToAllPDFPages_not_a_pdf _ _ _ _ Hb).
    cbn [result trace fst snd]. repeat split.
    + intros [d H]. cbn in H.
      repeat (destruct H as [H|H]; [discriminate H|]). contradiction.
    + intros [d H]. cbn in H.
      repeat (destruct H as [H|H]; [discriminate H|]). contradiction.
  - rewrite (addStampToPDF_reaches _ _ _ _ _ _ Hb).
    rewrite (addStampToAllPDFPages_reaches _ _ _ _ _ Hb).
    rewrite embedStamp_reaches.
    destruct (addStampToPDF_stamp_fails _ _ _ _ position pageNumber Hb He)
      as (t & e & _ & ->).
    destruct (addStampToAllPDFPages_stamp_fails _ _ _ _ position Hb He)
      as (t' & e' & _ & ->).
    cbn [result snd]. repeat split; intros (_ & H & _); congruence.
Qed.

Lemma stamp_without_comma_rejected_witness :
  result (addStampToPDF Examples.sturdy Examples.onePage "data:image/png"
                        None 1)
  = inl StampApplyFailed.
Proof.
  exact (proj1 (proj2
    (stamp_without_comma_rejected Examples.sturdy Examples.onePage
       "data:image/png" None 1 eq_refl))).
Defined.

(** X12: the payload [dataURLToBytes] decodes is the text between the
    first and the second comma of the data URL: whatever follows a second
    comma is ignored, and the decoded bytes do not depend on it. *)
Theorem payload_is_second_segment head payload tail :
  comma_free head = true ->
  comma_free payload = true ->
  base64Of (head ++ String "," payload) = payload /\
  base64Of (head ++ String "," (payload ++ String "," tail)) = payload /\
  dataURLToBytes (head ++ String "," (payload ++ String "," tail))
  = dataURLToBytes (head ++ String "," payload).
Proof.
  intros Hh Hp.
  assert (H1 : base64Of (head ++ String "," payload) = payload).
  { unfold base64Of. rewrite (split_comma_head _ _ Hh).
    rewrite (split_comma_comma_free _ Hp). reflexivity. }
  assert (H2 : base64Of (head ++ String "," (payload ++ String "," tail))
               = payload).
  { unfold base64Of. rewrite (split_comma_head _ _ Hh).
    rewrite (split_comma_head _ _ Hp). reflexivity. }
  split; [exact H1|]. split; [exact H2|].
  unfold dataURLToBytes. rewrite H1, H2. reflexivity.
Qed.

Lemma payload_is_second_segment_witness :
  base64Of ("data:image/png;base64" ++ String "," ("iVBORw0KGgo=" ++ String "," "AAAA"))
  = "iVBORw0KGgo=".
Proof.
  exact (proj1 (proj2
    (payload_is_second_segment "data:image/png;base64" "iVBORw0KGgo=" "AAAA"
       eq_refl eq_refl))).
Defined.

(** ** Page images *)

Lemma bind_ret_image (m : M PageImage) :
  trace (bind m (fun r => ret (image r))) = trace m.
Proof.
  destruct m as [t [e|r]]; cbn; [reflexivity|]. apply app_nil_r.
Qed.

(** X13: for a page without a recorded placement, [getPageImageByFile]
    does what [pdfPageToImage] does and returns its image: it makes the
    same calls, never enters the compositor, and does not depend on the
    stamps of the library; for page 1 it is [getImageByFile]. *)
Theorem page_without_placement pf store file pageNumber :
  find (fun stamp => (Pdf.pageNumber stamp =? pageNumber)%Z) (pageStamps store)
  = None ->
  let run := getPageImageByFile pf store file pageNumber in
  trace run = trace (pdfPageToImage pf file pageNumber) /\
  result run = inr (rasterization pf file pageNumber) /\
  filter is_enter (trace run) = [] /\
  (forall stamps',
     getPageImageByFile pf (mkStoreState (pageStamps store) stamps') file
                        pageNumber = run) /\
  (pageNumber = 1%Z -> getImageByFile pf file = run).
Proof.
  intros Hfind run.
  assert (Hrun : run = bind (pdfPageToImage pf file pageNumber)
                            (fun r => ret (image r)))
    by (unfold run, getPageImageByFile; rewrite Hfind; reflexivity).
  split; [rewrite Hrun; apply bind_ret_image|].
  split; [rewrite Hrun; apply image_run|].
  split; [rewrite Hrun, bind_ret_image; apply pdfPageToImage_no_enter|].
  split.
  - intros stamps'. rewrite Hrun. unfold getPageImageByFile. cbn [pageStamps].
    rewrite Hfind. reflexivity.
  - intros ->. rewrite Hrun. unfold getImageByFile, pdfFileToImage.
    destruct (pdfPageToImage pf file 1) as [t [e|r]]; cbn; [reflexivity|].
    rewrite !app_nil_r. reflexivity.
Qed.

Lemma page_without_placement_witness :
  result (getPageImageByFile Examples.sturdy Examples.sealOnPage1
                             Examples.threePages 2)
  = inr (rasterization Examples.sturdy Examples.threePages 2).
Proof.
  exact (proj1 (proj2
    (page_without_placement Examples.sturdy Examples.sealOnPage1
                            Examples.threePages 2 eq_refl))).
Defined.

(** X14: when the placement's stamp is in the library and embeds, the file
    parses and the page number is in range, the image [getPageImageByFile]
    returns is the renderer's image of the page with one image added: the
    stamp, at the rectangle the transform gives for the placement with [x]
    and [y] replaced by [Math.max(0, .)]; it is the empty image if the
    renderer fails on that page. *)
Theorem stamped_page_image
    pf store file pages pageNumber pageStamp stamp imageData page :
  find (fun stamp => (Pdf.pageNumber stamp =? pageNumber)%Z) (pageStamps store)
  = Some pageStamp ->
  find (fun s => String.eqb (id s) (stampId pageStamp)) (stamps store)
  = Some stamp ->
  bytes file = PdfBytes pages ->
  embeddable pf (src stamp) = Some imageData ->
  in_range pageNumber pages ->
  nth_error pages (Z.to_nat (pageNumber - 1)) = Some page ->
  let handed :=
    mkRect (Math_max 0 (x (position pageStamp)))
           (Math_max 0 (y (position pageStamp)))
           (width (position pageStamp)) (height (position pageStamp)) in
  let stamped :=
    mkPage (page_width page) (page_height page)
           (page_images page ++
            [mkDrawn imageData
               (stampRect (Some handed) (page_width page) (page_height page))]) in
  result (getPageImageByFile pf store file pageNumber)
  = inr match rasterize pf stamped with
        | Some dataUrl => dataUrl
        | None => ""
        end.
Proof.
  intros Hfind Hstamp Hb He Hr Hp handed stamped.
  pose proof (addStampToPDF_ok pf file pages (src stamp) imageData
                (Some (clamped (position pageStamp))) pageNumber page
                Hb He Hr Hp) as Hok.
  cbv zeta in Hok.
  rewrite (page_image_after_compositing pf store file pageNumber pageStamp stamp
             _ Hfind Hstamp (f_equal snd Hok)).
  f_equal. unfold rasterization.
  set (pages' := replace_nth (Z.to_nat (pageNumber - 1))
                   (drawImage page imageData
                      (stampRect (Some (clamped (position pageStamp)))
                                 (page_width page) (page_height page)))
                   pages).
  assert (Hr' : in_range pageNumber pages').
  { unfold in_range, numPages, pages' in *. rewrite length_replace_nth.
    exact Hr. }
  assert (Hp' : nth_error pages' (Z.to_nat (pageNumber - 1)) = Some stamped).
  { unfold pages'. apply nth_error_replace_nth_same.
    apply nth_error_Some. congruence. }
  destruct (rasterize pf stamped) as [dataUrl|] eqn:Hd.
  - rewrite (pdfPageToImage_rendered pf (mkFile (name file) (PdfBytes pages'))
               pages' pageNumber stamped dataUrl eq_refl Hr' Hp' Hd).
    reflexivity.
  - rewrite (pdfPageToImage_render_fails pf
               (mkFile (name file) (PdfBytes pages'))
               pages' pageNumber stamped eq_refl Hr' Hp' Hd).
    reflexivity.
Qed.

Lemma stamped_page_image_witness :
  result (getPageImageByFile Examples.sturdy Examples.sealOnPage1
                             Examples.onePage 1)
  = inr "data:image/png;base64,c3RhbXBlZA==".
Proof.
  exact (stamped_page_image Examples.sturdy Examples.sealOnPage1
           Examples.onePage [Examples.surfacePage] 1
           (mkPageStamp 1 "seal-1" Examples.overCorner) Examples.seal
           [Byte.x89; Byte.x50; Byte.x4e; Byte.x47;
            Byte.x0d; Byte.x0a; Byte.x1a; Byte.x0a]
           Examples.surfacePage eq_refl eq_refl eq_refl eq_refl
           (conj (Z.le_refl 1) (Z.le_refl 1)) eq_refl).
Defined.

(** X20: for every request for a page with a recorded placement,
    [getPageImageByFile] never throws, and if the stamp named by the
    placement is not in the library, or if [addStampToPDF] fails, it
    returns the rasterization of the unstamped page. *)
Theorem page_image_fallback pf store file pageNumber pageStamp :
  find (fun stamp => (Pdf.pageNumber stamp =? pageNumber)%Z) (pageStamps store)
  = Some pageStamp ->
  let run := getPageImageByFile pf store file pageNumber in
  let lookup := find (fun s => String.eqb (id s) (stampId pageStamp))
                     (stamps store) in
  let composite stamp :=
    addStampToPDF pf file (src stamp) (Some (clamped (position pageStamp)))
                  pageNumber in
  (exists image, result run = inr image) /\
  (lookup = None -> result run = inr (rasterization pf file pageNumber)) /\
  (forall stamp e,
     lookup = Some stamp -> result (composite stamp) = inl e ->
     result run = inr (rasterization pf file pageNumber)).
Proof.
  intros Hfind run lookup composite.
  assert (Hnone : lookup = None ->
                  result run = inr (rasterization pf file pageNumber)).
  { intros Hl. unfold run, getPageImageByFile. rewrite Hfind.
    fold lookup. rewrite Hl.
    rewrite (result_try_catch_inl _ _ StampNotFound) by reflexivity.
    apply fallback_run. }
  assert (Hfail : forall stamp e,
     lookup = Some stamp -> result (composite stamp) = inl e ->
     result run = inr (rasterization pf file pageNumber)).
  { intros stamp e Hl Hc. unfold run, getPageImageByFile. rewrite Hfind.
    fold lookup. rewrite Hl.
    rewrite (result_try_catch_inl _ _ e).
    - apply fallback_run.
    - rewrite (result_bind_inr _ _ stamp) by reflexivity.
      apply result_bind_inl. exact Hc. }
  repeat split; auto.
  destruct lookup as [stamp|] eqn:Hl.
  - destruct (result (composite stamp)) as [e|modified] eqn:Hc; eauto.
    unfold composite in Hc. unfold run.
    rewrite (page_image_after_compositing _ _ _ _ _ _ _ Hfind Hl Hc). eauto.
  - eauto.
Qed.

Lemma page_image_fallback_witness :
  result (getPageImageByFile Examples.sturdy Examples.sealRemoved
                             Examples.onePage 1)
  = inr (rasterization Examples.sturdy Examples.onePage 1).
Proof.
  exact (proj1 (proj2
    (page_image_fallback Examples.sturdy Examples.sealRemoved Examples.onePage 1
       (mkPageStamp 1 "seal-1" Examples.overCorner) eq_refl)) eq_refl).
Defined.

(** ** The editing surface *)

Section SinglePlacement.

Import StampAdder.

Lemma filter_keeps_others (base : list FabricImage) (old : FabricImage) :
  ~ In (obj_id old) (List.map obj_id base) ->
  filter (fun o' => negb (same_object o' old)) base = base.
Proof.
  induction base as [|b base IH]; cbn; intros H; [reflexivity|].
  unfold same_object at 1.
  destruct (Nat.eqb_spec (obj_id b) (obj_id old)) as [E|E]; cbn.
  - exfalso. apply H. left. assumption.
  - rewrite IH; [reflexivity|]. intros H'. apply H. right. assumption.
Qed.

Lemma remove_placed (base : list FabricImage) (old : FabricImage) :
  NoDup (List.map obj_id (base ++ [old])) ->
  filter (fun o' => negb (same_object o' old)) (base ++ [old]) = base.
Proof.
  intros Hnd. rewrite filter_app. cbn. unfold same_object at 2.
  rewrite Nat.eqb_refl. cbn. rewrite app_nil_r.
  apply filter_keeps_others.
  rewrite map_app in Hnd. cbn in Hnd.
  apply NoDup_remove_2 in Hnd. rewrite app_nil_r in Hnd. exact Hnd.
Qed.

Lemma placed_beyond_app base l w :
  objects (canvas w) = base ++ l -> placed_beyond base w = l.
Proof.
  intros H. unfold placed_beyond. rewrite H.
  rewrite skipn_app, Nat.sub_diag, skipn_all. reflexivity.
Qed.

Lemma addStampToCanvas_loaded hook w selected width height :
  hook_selectedStamp hook = Some selected ->
  addStampToCanvas hook w (Loaded width height)
  = (let fabricImg := newStampImage (canvas w) (next_id w) width height in
     match hook_stampObject hook with
     | Some old => [Remove old; SetStampObject None]
     | None => []
     end ++
     [NewFabricImage fabricImg; Add fabricImg; SetActiveObject fabricImg;
      SetStampObject (Some fabricImg); RequestRenderAll;
      ToastSuccess StampAdded],
     true).
Proof.
  intros Hsel. unfold addStampToCanvas, begin. rewrite Hsel.
  destruct (hook_stampObject hook) as [old|]; reflexivity.
Qed.

Lemma addStampToCanvas_true hook w load :
  snd (addStampToCanvas hook w load) = true ->
  exists selected width height,
    hook_selectedStamp hook = Some selected /\ load = Loaded width height.
Proof.
  unfold addStampToCanvas, begin.
  destruct (hook_selectedStamp hook) as [selected|]; [|discriminate].
  destruct load as [width height| |width height at_|]; cbn;
    try discriminate; eauto.
Qed.

Lemma place_succeeds_inv w load :
  place_succeeds w load = true ->
  exists selected width height,
    selectedStamp (store w) = Some selected /\ load = Loaded width height.
Proof. exact (addStampToCanvas_true (useStampAdder (store w)) w load). Qed.

Lemma fresh_not_in base (n : nat) :
  Forall (fun o => (obj_id o < n)%nat) base -> ~ In n (List.map obj_id base).
Proof.
  intros Hf Hin. apply in_map_iff in Hin. destruct Hin as (o & Ho & Hin).
  rewrite Forall_forall in Hf. specialize (Hf o Hin). lia.
Qed.

Lemma consistent_after_add base fresh (fabricImg : FabricImage) :
  obj_id fabricImg = fresh ->
  Forall (fun o => (obj_id o < fresh)%nat) base ->
  NoDup (List.map obj_id base) ->
  Forall (fun o => (obj_id o < S fresh)%nat) (base ++ [fabricImg]) /\
  NoDup (List.map obj_id (base ++ [fabricImg])).
Proof.
  intros Hid Hlt Hnd. split.
  - apply Forall_app. split.
    + eapply Forall_impl; [|exact Hlt]. cbn. intros; lia.
    + constructor; [lia|constructor].
  - rewrite map_app. cbn. rewrite Hid.
    apply NoDup_rev in Hnd. rewrite <- (rev_involutive (_ ++ _)).
    apply NoDup_rev. rewrite rev_app_distr. cbn.
    constructor; [|exact Hnd].
    rewrite <- in_rev. apply fresh_not_in. exact Hlt.
Qed.

(** One successful call: its effects in order, the canvas at every moment,
    and the world it leaves. *)
Lemma place_once base w load :
  Consistent base w ->
  place_succeeds w load = true ->
  exists width height,
    load = Loaded width height /\
    let fabricImg := newStampImage (canvas w) (next_id w) width height in
    let actions := fst (addStampToCanvas (useStampAdder (store w)) w load) in
    actions
    = match stampObject (store w) with
      | Some old => [Remove old; SetStampObject None]
      | None => []
      end ++
      [NewFabricImage fabricImg; Add fabricImg; SetActiveObject fabricImg;
       SetStampObject (Some fabricImg); RequestRenderAll;
       ToastSuccess StampAdded] /\
    (forall w', In w' (states w actions) ->
                (List.length (placed_beyond base w') <= 1)%nat) /\
    objects (canvas (place w load)) = base ++ [fabricImg] /\
    stampObject (store (place w load)) = Some fabricImg /\
    selectedStamp (store (place w load)) = selectedStamp (store w) /\
    Consistent base (place w load).
Proof.
  intros (Hobj & Hlt & Hnd) Hok.
  destruct (place_succeeds_inv _ _ Hok) as (selected & width & height & Hsel & ->).
  exists width, height. split; [reflexivity|].
  unfold place.
  rewrite (addStampToCanvas_loaded (useStampAdder (store w)) w selected
             width height Hsel).
  destruct w as [[sel placed] [cw ch objs act] fresh]. cbn in *. subst sel.
  set (fabricImg := newStampImage (mkCanvas cw ch objs act) fresh width height).
  assert (Hid : obj_id fabricImg = fresh) by reflexivity.
  destruct placed as [old|]; cbn.
  - subst objs. rewrite (remove_placed _ _ Hnd).
    apply Forall_app in Hlt. destruct Hlt as [Hb _].
    rewrite map_app in Hnd. apply NoDup_app_remove_r in Hnd.
    destruct (consistent_after_add base fresh fabricImg Hid Hb Hnd) as [Hlt' Hnd'].
    split; [reflexivity|]. split; [|split; [reflexivity|split; [reflexivity|]]].
    + intros w' Hin.
      repeat (destruct Hin as [<-|Hin]; [cbn|]); try contradiction.
      all: first [ erewrite placed_beyond_app by (cbn; reflexivity); cbn; lia
            | erewrite placed_beyond_app
                by (cbn; symmetry; apply app_nil_r); cbn; lia ].
    + split; [reflexivity|]. unfold Consistent. cbn. auto.
  - rewrite app_nil_r in Hobj. subst objs.
    destruct (consistent_after_add base fresh fabricImg Hid Hlt Hnd) as [Hlt' Hnd'].
    split; [reflexivity|]. split; [|split; [reflexivity|split; [reflexivity|]]].
    + intros w' Hin.
      repeat (destruct Hin as [<-|Hin]; [cbn|]); try contradiction.
      all: first [ erewrite placed_beyond_app by (cbn; reflexivity); cbn; lia
            | erewrite placed_beyond_app
                by (cbn; symmetry; apply app_nil_r); cbn; lia ].
    + split; [reflexivity|]. unfold Consistent. cbn. auto.
Qed.

Lemma place_all_prefix base loads : forall w done load rest,
  Consistent base w ->
  all_succeed w loads ->
  loads = done ++ load :: rest ->
  Consistent base (place_all w done) /\
  place_succeeds (place_all w done) load = true.
Proof.
  induction loads as [|l loads IH]; intros w done load rest Hc Hs Heq.
  - destruct done; discriminate.
  - destruct Hs as [Hl Hs]. destruct done as [|d done]; cbn in Heq.
    + injection Heq as -> ->. cbn. auto.
    + injection Heq as -> ->. cbn.
      destruct (place_once base w d Hc Hl) as (wd & ht & _ & H).
      cbv zeta in H. destruct H as (_ & _ & _ & _ & _ & Hc').
      exact (IH (place w d) done load rest Hc' Hs eq_refl).
Qed.

Lemma place_all_consistent base loads : forall w,
  Consistent base w -> all_succeed w loads ->
  Consistent base (place_all w loads).
Proof.
  induction loads as [|l loads IH]; intros w Hc Hs; cbn; [assumption|].
  destruct Hs as [Hl Hs].
  destruct (place_once base w l Hc Hl) as (wd & ht & _ & H).
  cbv zeta in H. destruct H as (_ & _ & _ & _ & _ & Hc').
  exact (IH _ Hc' Hs).
Qed.

Lemma place_all_snoc w done load :
  place_all w (done ++ [load]) = place (place_all w done) load.
Proof. unfold place_all. rewrite fold_left_app. reflexivity. Qed.

(** X21: when every call of [addStampToCanvas] is made through the hook
    of the current render and its image has settled before the next call
    ([place]), then in every series of calls that all succeed, started on a
    canvas that holds, beyond its other objects, exactly the stamp object
    the store refers to (or none), each call first removes that object from
    the canvas and clears the reference, and only then adds the new object
    and refers to it; at every moment of every call the canvas holds at
    most one placed stamp object, and after the series the store refers to
    the one placed object on the canvas. *)
Theorem single_placed_object base w loads :
  Consistent base w ->
  all_succeed w loads ->
  let final := place_all w loads in
  Consistent base final /\
  (loads <> [] ->
   exists o, stampObject (store final) = Some o /\
             objects (canvas final) = base ++ [o]) /\
  (forall done load rest,
     loads = done ++ load :: rest ->
     let before := place_all w done in
     exists width height,
       load = Loaded width height /\
       let fabricImg :=
         newStampImage (canvas before) (next_id before) width height in
       let actions :=
         fst (addStampToCanvas (useStampAdder (store before)) before load) in
       actions
       = match stampObject (store before) with
         | Some old => [Remove old; SetStampObject None]
         | None => []
         end ++
         [NewFabricImage fabricImg; Add fabricImg; SetActiveObject fabricImg;
          SetStampObject (Some fabricImg); RequestRenderAll;
          ToastSuccess StampAdded] /\
       (forall w', In w' (states before actions) ->
                   (List.length (placed_beyond base w') <= 1)%nat) /\
       stampObject (store (place before load)) = Some fabricImg /\
       objects (canvas (place before load)) = base ++ [fabricImg]).
Proof.
  intros Hc Hs final. split; [|split].
  - apply place_all_consistent; assumption.
  - intros Hne. destruct (exists_last Hne) as (done & load & Heq).
    destruct (place_all_prefix base loads w done load [] Hc Hs Heq)
      as [Hc' Hl].
    destruct (place_once base _ load Hc' Hl) as (wd & ht & _ & H).
    cbv zeta in H. destruct H as (_ & _ & Hobj & Hso & _).
    unfold final. rewrite Heq, place_all_snoc. eauto.
  - intros done load rest Heq before.
    destruct (place_all_prefix base loads w done load rest Hc Hs Heq)
      as [Hc' Hl].
    destruct (place_once base _ load Hc' Hl) as (wd & ht & Hload & H).
    cbv zeta in H. destruct H as (Hact & Hst & Hobj & Hso & _).
    exists wd, ht. cbv zeta. auto.
Qed.

End SinglePlacement.

Lemma single_placed_object_witness :
  exists o,
    StampAdder.stampObject
      (StampAdder.store
         (StampAdder.place_all Examples.emptySurface Examples.twoLoads))
    = Some o /\
    StampAdder.objects
      (StampAdder.canvas
         (StampAdder.place_all Examples.emptySurface Examples.twoLoads))
    = [] ++ [o].
Proof.
  refine (proj1 (proj2
    (single_placed_object [] Examples.emptySurface Examples.twoLoads _ _)) _).
  - repeat split; cbn; constructor.
  - cbn. auto.
  - discriminate.
Defined.

Section AnySchedule.

Import StampAdder.

(** [place] is a call through the hook of the current render, followed at
    once by the settling of its image. *)
Lemma place_is_call_then_settle w load :
  world (happen_all (mkSurface w [])
                    [Call (useStampAdder (store w)) load; Settle 0])
  = place w load.
Proof.
  unfold place, addStampToCanvas, happen_all. cbn [fold_left happen world].
  destruct (begin (useStampAdder (store w)) load) as [called [resolved|]].
  - reflexivity.
  - cbn. destruct (settle (run w called) load) as [settled resolved].
    cbn. unfold run. rewrite fold_left_app. reflexivity.
Qed.

Lemma happen_keeps_reference s h :
  referenced_on_canvas (world s) -> referenced_on_canvas (world (happen s h)).
Proof.
  intros H. destruct h as [hook load|k].
  - unfold happen, begin.
    destruct (hook_selectedStamp hook) as [selected|]; [|exact H].
    destruct (hook_stampObject hook) as [old|].
    + destruct load; intros o Ho; discriminate Ho.
    + destruct load; exact H.
  - unfold happen.
    destruct (nth_error (loading s) k) as [load|]; [|exact H].
    destruct load as [width height| |width height at_|].
    + intros o Ho. cbn in Ho |- *. injection Ho as <-.
      apply in_or_app. right. left. reflexivity.
    + exact H.
    + destruct at_; cbn; try exact H.
      * intros o Ho. apply in_or_app. left. exact (H o Ho).
      * intros o Ho. apply in_or_app. left. exact (H o Ho).
      * intros o Ho. cbn in Ho. injection Ho as <-.
        apply in_or_app. right. left. reflexivity.
      * intros o Ho. cbn in Ho. injection Ho as <-.
        apply in_or_app. right. left. reflexivity.
    + exact H.
Qed.

(** X22: through any series of calls of [addStampToCanvas] with one target
    canvas, made through any hook, of the current render or of an earlier
    one, the images settling in any order and every call leaving by any of
    its exits, the store never comes to refer to an object that is not on
    the canvas: the reference is set only after [targetCanvas.add], and an
    object is removed only together with clearing the reference. *)
Theorem reference_stays_on_canvas s hs :
  referenced_on_canvas (world s) ->
  referenced_on_canvas (world (happen_all s hs)).
Proof.
  revert s. induction hs as [|h hs IH]; intros s H; [exact H|].
  cbn. apply IH. apply happen_keeps_reference. exact H.
Qed.

End AnySchedule.

Lemma reference_stays_on_canvas_witness :
  StampAdder.referenced_on_canvas
    (StampAdder.world
       (StampAdder.happen_all
          (StampAdder.mkSurface Examples.emptySurface [])
          Examples.overlappingCalls)).
Proof.
  apply (reference_stays_on_canvas
           (StampAdder.mkSurface Examples.emptySurface [])
           Examples.overlappingCalls).
  intros o Ho. discriminate Ho.
Defined.

(** ** The stamp library *)

Section LibraryClicks.

Import StampUploader StampSelection.

(** X17: a click on a stamp toggles it: the clicked stamp's identifier is
    selected afterwards exactly when it was not before; a click never
    selects a stamp other than the clicked one, and announces a selection
    exactly when it makes one. Two clicks on the same stamp leave the
    question whether it is selected as it was. *)
Theorem select_toggles selected stamp :
  let after := fst (handleStampSelect selected stamp) in
  is_selected after (id stamp) = negb (is_selected selected (id stamp)) /\
  (after = None \/ after = Some stamp) /\
  (snd (handleStampSelect selected stamp) = [StampSelected (stamp_name stamp)]
   <-> after = Some stamp) /\
  is_selected (clicks selected [stamp; stamp]) (id stamp)
  = is_selected selected (id stamp) /\
  clicks None [stamp; stamp] = None.
Proof.
  unfold clicks, handleStampSelect, is_selected. cbn.
  rewrite !String.eqb_refl.
  destruct selected as [s|]; cbn.
  - destruct (String.eqb (id s) (id stamp)) eqn:E; cbn;
      rewrite ?String.eqb_refl; cbn; rewrite ?String.eqb_refl;
      repeat split; auto; try discriminate.
  - rewrite ?String.eqb_refl. repeat split; auto.
Qed.

(** X18: an upload changes the library only by one call of [addStamp], and
    only when a file was chosen, fewer than five stamps exist, the file is
    valid and the reader delivers a non-empty data URL; the stamp added
    carries that data URL, the file's name and the fresh identifier, and
    the success message is shown in that case and in no other. No file, an
    invalid file or an empty read leave the library as it is. *)
Theorem upload_adds_only_valid_reads
    (addStamp : Stamp -> list Stamp -> list Stamp) stamps e :
  let outcome := handleStampChange addStamp stamps e in
  let accepted fileName dataUrl :=
    selectedFile e = Some fileName /\ (List.length stamps < 5)%nat /\
    isValid e = true /\ readerResult e = Some dataUrl /\ dataUrl <> "" in
  (forall fileName dataUrl,
     accepted fileName dataUrl ->
     outcome = (addStamp (mkStamp (uuid e) dataUrl fileName) stamps,
                [SuccessAdded])) /\
  (In SuccessAdded (snd outcome) ->
   exists fileName dataUrl, accepted fileName dataUrl) /\
  (~ (exists fileName dataUrl, accepted fileName dataUrl) ->
   fst outcome = stamps) /\
  (selectedFile e = None -> outcome = (stamps, [])).
Proof.
  intros outcome accepted. unfold outcome, accepted, handleStampChange.
  destruct (selectedFile e) as [fileName|]; cbn [fst snd].
  2:{ repeat split; auto.
      all: solve [ intros []
                 | intros f d H; decompose [and] H; congruence ]. }
  destruct (Nat.leb_spec 5 (List.length stamps)) as [Hl|Hl]; cbn [fst snd].
  { repeat split; auto; try discriminate.
    all: solve [ intros [H|[]]; discriminate H
               | intros f d H; decompose [and] H; lia ]. }
  destruct (isValid e); cbn [fst snd].
  2:{ repeat split; auto; try discriminate.
      all: solve [ intros []
                 | intros f d H; decompose [and] H; congruence ]. }
  destruct (readerResult e) as [dataUrl|]; cbn [fst snd].
  2:{ repeat split; auto; try discriminate.
      all: solve [ intros []
                 | intros f d H; decompose [and] H; congruence ]. }
  destruct (String.eqb_spec dataUrl "") as [E|E]; cbn [fst snd].
  { repeat split; auto; try discriminate.
    all: solve [ intros []
               | intros f d H; decompose [and] H; congruence ]. }
  repeat split; try discriminate.
  - intros f d (H1 & _ & _ & H4 & _). congruence.
  - intros _. exists fileName, dataUrl. auto.
  - intros H. exfalso. apply H. exists fileName, dataUrl. auto.
Qed.

End LibraryClicks.

(** ** Preview and export *)

Lemma Math_max_0_positive v : (0 <? v) = true -> Math_max 0 v = v.
Proof.
  intros H. unfold Math_max. change (is_nan 0) with false. cbn [orb].
  assert (Hn : is_nan v = false).
  { unfold is_nan. rewrite eqb_spec. rewrite ltb_spec in H.
    change (Prim2SF 0) with (S754_zero false) in H.
    destruct (Prim2SF v) as [s|s| |s m e]; cbn in *; try discriminate;
      destruct s; try discriminate; cbn.
    - reflexivity.
    - unfold SFeqb, SFcompare. rewrite Z.compare_refl, Pos.compare_cont_refl.
      reflexivity. }
  rewrite Hn, H. reflexivity.
Qed.

(** X19: for a placement whose [x] and [y] are positive, the clamp of
    [getPageImageByFile] changes nothing: the compositor is called with
    the recorded placement itself, so when [addStampToPDF], called directly
    with that placement, returns a document, the image
    [getPageImageByFile] returns is the rasterization of that very
    document. *)
Theorem preview_shows_the_export
    pf store file pageNumber pageStamp stamp modified :
  find (fun stamp => (Pdf.pageNumber stamp =? pageNumber)%Z) (pageStamps store)
  = Some pageStamp ->
  find (fun s => String.eqb (id s) (stampId pageStamp)) (stamps store)
  = Some stamp ->
  (0 <? x (position pageStamp)) = true ->
  (0 <? y (position pageStamp)) = true ->
  result (addStampToPDF pf file (src stamp) (Some (position pageStamp))
                        pageNumber) = inr modified ->
  clamped (position pageStamp) = position pageStamp /\
  filter is_enter (trace (getPageImageByFile pf store file pageNumber))
  = [Enter_addStampToPDF (src stamp) (Some (position pageStamp)) pageNumber] /\
  result (getPageImageByFile pf store file pageNumber)
  = inr (rasterization pf (mkFile (name file) modified) pageNumber).
Proof.
  intros Hfind Hstamp Hx Hy Hok.
  assert (Hcl : clamped (position pageStamp) = position pageStamp).
  { unfold clamped. rewrite (Math_max_0_positive _ Hx).
    rewrite (Math_max_0_positive _ Hy). destruct (position pageStamp).
    reflexivity. }
  split; [exact Hcl|]. split.
  - rewrite (getPageImageByFile_calls pf store file pageNumber pageStamp stamp
               Hfind Hstamp is_enter (or_introl eq_refl)).
    rewrite Hcl. apply addStampToPDF_calls.
  - apply (page_image_after_compositing pf store file pageNumber pageStamp
             stamp modified Hfind Hstamp).
    rewrite Hcl. exact Hok.
Qed.

Lemma preview_shows_the_export_witness :
  clamped (mkRect 30 40 100 100) = mkRect 30 40 100 100.
Proof.
  exact (proj1
    (preview_shows_the_export Examples.sturdy
       (mkStoreState [mkPageStamp 1 "seal-1" (mkRect 30 40 100 100)]
                     [Examples.seal])
       Examples.onePage 1 (mkPageStamp 1 "seal-1" (mkRect 30 40 100 100))
       Examples.seal _ eq_refl eq_refl eq_refl eq_refl eq_refl)).
Defined.
